(** * The MNIST notebook (ImageClassification-Copy1.ipynb)

    The notebook is a straight line of library calls.  The development
    models

    - the values the notebook handles: NumPy arrays as a shape and a
      row-major buffer ([np]), with [uint8] items as integers and
      [float32] and [float64] items as IEEE numbers ([Float32],
      [Float64]);
    - the library calls whose result the notebook determines: [reshape],
      [astype] and the division by a scalar ([np]), [to_categorical],
      [Sequential], [Dense], [add], [compile] and the computation of a
      dense network ([keras]);
    - the code cells themselves ([py], [nb]): their statements, in the
      constructors of Python's [ast]; a run of them, statement after
      statement, in which what a library call does is left open; and what
      cells 20 to 26 compute, as functions in an error monad.  *)

From Stdlib Require Import String.
From Stdlib Require Import List ZArith NArith Lia Bool.
From Stdlib Require Import Floats.SpecFloat.
From Stdlib Require Import Reals Lra.
From Stdlib Require Import QArith Qabs.
Close Scope Q_scope.
Import ListNotations.

Set Implicit Arguments.
Set Warnings "-register-all".

(** ** Python exceptions and the error monad *)

Inductive exn : Type :=
| ValueError
| IndexError
| TypeError
| RuntimeError
| ImportError.

Inductive result (A : Type) : Type :=
| Ok (a : A)
| Raise (e : exn).

Arguments Ok {A} a.
Arguments Raise {A} e.

Definition bind {A B : Type} (m : result A) (k : A -> result B) : result B :=
  match m with
  | Ok a => k a
  | Raise e => Raise e
  end.

Declare Scope py_scope.
Delimit Scope py_scope with py.
Notation "x <- m ;; k" := (bind m (fun x => k))
  (at level 61, m at next level, right associativity) : py_scope.
Notation "' p <- m ;; k" := (bind m (fun x => match x with p => k end))
  (at level 61, p pattern, m at next level, right associativity) : py_scope.
Open Scope py_scope.

(** ** IEEE binary32, the dtype ['float32'] *)

Module Float32.

Definition prec : Z := 24.
Definition emax : Z := 128.

Definition float32 : Type := spec_float.

(** Conversion of an integer, rounding to nearest even. *)
Definition of_Z (k : Z) : float32 := binary_normalize prec emax k 0 false.

Definition div (x y : float32) : float32 := SFdiv prec emax x y.

Definition zero : float32 := S754_zero false.
Definition one : float32 := of_Z 1.

Definition leb (x y : float32) : bool := SFleb x y.

Definition valid (x : float32) : bool := valid_binary prec emax x.

(** [x] is a number of the closed interval from 0 to 1. *)
Definition in_unit_interval (x : float32) : bool :=
  valid x && leb zero x && leb x one.

End Float32.

(** ** IEEE binary64, the dtype of [np.zeros] *)

Module Float64.

Definition prec : Z := 53.
Definition emax : Z := 1024.

Definition float64 : Type := spec_float.

Definition of_Z (k : Z) : float64 := binary_normalize prec emax k 0 false.

Definition zero : float64 := S754_zero false.
Definition one : float64 := of_Z 1.

End Float64.

(** ** NumPy arrays *)

Module np.

(** A C-contiguous array: its shape and its buffer in row-major order. *)
Record ndarray (A : Type) : Type := mk_ndarray {
  shape : list N;
  data : list A
}.

(** [a.size] for an array of shape [shp]. *)
Definition size (shp : list N) : N := fold_right N.mul 1%N shp.

(** The buffer holds as many items as the shape says. *)
Definition wf {A} (a : ndarray A) : Prop :=
  N.of_nat (length (data a)) = size (shape a).

(** [len(a)]: the length of the first axis; a 0-d array has none. *)
Definition len {A} (a : ndarray A) : result N :=
  match shape a with
  | [] => Raise TypeError
  | n :: _ => Ok n
  end.

(** [a.reshape(newshape)]: the same buffer read under another shape;
    [ValueError] when the sizes differ. *)
Definition reshape {A} (a : ndarray A) (newshape : list N)
  : result (ndarray A) :=
  if (size newshape =? size (shape a))%N
  then Ok {| shape := newshape; data := data a |}
  else Raise ValueError.

(** The offset in the buffer of the item at a multi-index, row-major;
    [IndexError] when an index is out of its axis or the number of
    indices is not the number of axes. *)
Fixpoint ravel_multi_index (shp idx : list N) (acc : N) : result N :=
  match shp, idx with
  | [], [] => Ok acc
  | d :: shp', i :: idx' =>
      if (i <? d)%N
      then ravel_multi_index shp' idx' (acc * d + i)%N
      else Raise IndexError
  | _, _ => Raise IndexError
  end.

(** [a[i0, i1, ...]] with one nonnegative index per axis. *)
Definition item {A} (a : ndarray A) (idx : list N) : result A :=
  off <- ravel_multi_index (shape a) idx 0%N ;;
  match nth_error (data a) (N.to_nat off) with
  | Some x => Ok x
  | None => Raise IndexError
  end.

(** [a.astype('float32')] on an array of integers. *)
Definition astype_float32 (a : ndarray Z) : ndarray Float32.float32 :=
  {| shape := shape a; data := map Float32.of_Z (data a) |}.

(** [a / k] for a float32 array and a Python integer: the integer is
    taken to float32 and the division is item by item. *)
Definition true_divide (a : ndarray Float32.float32) (k : Z)
  : ndarray Float32.float32 :=
  {| shape := shape a;
     data := map (fun x => Float32.div x (Float32.of_Z k)) (data a) |}.

(** The items of a ['uint8'] array. *)
Definition is_uint8 (a : ndarray Z) : Prop :=
  Forall (fun v => (0 <= v <= 255)%Z) (data a).

End np.

(** ** Keras *)

Module keras.

Import np.

(** *** [keras.utils.to_categorical] *)

(** [np.max] of a flattened array; [ValueError] on an empty one. *)
Definition amax (ys : list Z) : result Z :=
  match ys with
  | [] => Raise ValueError
  | y :: ys' => Ok (fold_left Z.max ys' y)
  end.

(** [np.zeros((n, k))]: a float64 buffer of [n * k] zeros; a negative
    dimension is a [ValueError]. *)
Definition zeros (n : N) (k : Z) : result (list Float64.float64) :=
  if (k <? 0)%Z then Raise ValueError
  else Ok (repeat Float64.zero (N.to_nat (n * Z.to_N k))).

(** An index into an axis of length [k]: a negative one counts from the
    end, anything outside is an [IndexError]. *)
Definition normalize_index (k j : Z) : result N :=
  if ((0 <=? j) && (j <? k))%Z then Ok (Z.to_N j)
  else if ((- k <=? j) && (j <? 0))%Z then Ok (Z.to_N (j + k))
  else Raise IndexError.

(** [buf[p] = v] on a flat buffer. *)
Fixpoint setitem {A} (buf : list A) (p : nat) (v : A) : result (list A) :=
  match buf, p with
  | [], _ => Raise IndexError
  | _ :: buf', O => Ok (v :: buf')
  | x :: buf', S p' => buf'' <- setitem buf' p' v ;; Ok (x :: buf'')
  end.

(** [categorical[np.arange(n), y] = 1], row [i] onwards. *)
Fixpoint assign_ones (k : Z) (i : N) (ys : list Z)
         (buf : list Float64.float64) : result (list Float64.float64) :=
  match ys with
  | [] => Ok buf
  | y :: ys' =>
      j <- normalize_index k y ;;
      buf' <- setitem buf (N.to_nat (i * Z.to_N k + j)) Float64.one ;;
      assign_ones k (N.succ i) ys' buf'
  end.

(** The item of row [r] and column [j] is set by [assign_ones k i ys]:
    the row is one of those of [ys] and [j] is its label. *)
Definition hit (i : N) (ys : list Z) (r j : N) : bool :=
  (i <=? r)%N
  && match nth_error ys (N.to_nat (r - i)) with
     | Some y => (y =? Z.of_N j)%Z
     | None => false
     end.

(** The shape [to_categorical] starts from: a trailing axis of length 1
    is dropped when it is not the only axis. *)
Definition squeeze_last (shp : list N) : list N :=
  match rev shp with
  | 1%N :: (_ :: _) as rest => rev rest
  | _ => shp
  end.

(** [to_categorical(y, num_classes=None)]. *)
Definition to_categorical (y : ndarray Z) (num_classes : option Z)
  : result (ndarray Float64.float64) :=
  let input_shape := squeeze_last (shape y) in
  let ys := data y in
  num_classes <-
    match num_classes with
    | Some k => if (k =? 0)%Z then (m <- amax ys ;; Ok (m + 1)%Z) else Ok k
    | None => m <- amax ys ;; Ok (m + 1)%Z
    end ;;
  let n := N.of_nat (length ys) in
  categorical <- zeros n num_classes ;;
  categorical <- assign_ones num_classes 0 ys categorical ;;
  reshape {| shape := [n; Z.to_N num_classes]; data := categorical |}
          (input_shape ++ [Z.to_N num_classes]).

(** *** Layers and [Sequential] models *)

Inductive activation : Type := relu | softmax.

(** [layers.Dense(units, activation=..., input_shape=...)]. *)
Record layer : Type := Dense {
  units : N;
  activation_of : activation;
  input_shape : option (list N)
}.

Record compile_args : Type := mk_compile_args {
  optimizer : string;
  loss : string;
  metrics : list string
}.

Record model : Type := mk_model {
  layers : list layer;
  compiled : option compile_args
}.

(** [models.Sequential()]. *)
Definition Sequential : model := {| layers := []; compiled := None |}.

(** [model.add(layer)]. *)
Definition add (m : model) (l : layer) : model :=
  {| layers := layers m ++ [l]; compiled := compiled m |}.

(** [model.compile(optimizer=..., loss=..., metrics=...)]. *)
Definition compile (m : model) (c : compile_args) : model :=
  {| layers := layers m; compiled := Some c |}.

(** *** The computation of a model

    Scores and weights are taken as real numbers: a dense layer is
    [activation (dot (input, kernel) + bias)]. *)

Local Open Scope R_scope.

(** The weights of a dense layer: [kernel] has one row per input and one
    column per unit. *)
Record dense_weights : Type := mk_dense_weights {
  kernel : list (list R);
  bias : list R
}.

Definition vadd (u v : list R) : list R :=
  map (fun p => fst p + snd p) (combine u v).

Definition vsum (v : list R) : R := fold_right Rplus 0 v.

(** [dot (x, kernel)]: the combination of the rows of [kernel] with the
    items of [x] as coefficients; [ValueError] on a shape mismatch. *)
Definition dot (x : list R) (K : list (list R)) (n_units : nat)
  : result (list R) :=
  if (length x =? length K)%nat
     && forallb (fun row => (length row =? n_units)%nat) K
  then Ok (fold_left (fun acc p => vadd acc (map (Rmult (fst p)) (snd p)))
                     (combine x K) (repeat 0 n_units))
  else Raise ValueError.

Definition bias_add (z b : list R) : result (list R) :=
  if (length z =? length b)%nat then Ok (vadd z b) else Raise ValueError.

Definition apply_relu (z : list R) : list R := map (Rmax 0) z.

Definition apply_softmax (z : list R) : list R :=
  let s := vsum (map exp z) in map (fun v => exp v / s) z.

Definition apply_activation (a : activation) (z : list R) : list R :=
  match a with
  | relu => apply_relu z
  | softmax => apply_softmax z
  end.

(** One dense layer on one input vector. *)
Definition call_layer (l : layer) (w : dense_weights) (x : list R)
  : result (list R) :=
  z <- dot x (kernel w) (N.to_nat (units l)) ;;
  z <- bias_add z (bias w) ;;
  Ok (apply_activation (activation_of l) z).

(** The layers one after the other, each on the output of the one
    before. *)
Fixpoint call_layers (ls : list layer) (ws : list dense_weights)
         (x : list R) : result (list R) :=
  match ls, ws with
  | [], [] => Ok x
  | l :: ls', w :: ws' => h <- call_layer l w x ;; call_layers ls' ws' h
  | _, _ => Raise ValueError
  end.

(** [model.predict] on one sample. *)
Definition predict (m : model) (ws : list dense_weights) (x : list R)
  : result (list R) :=
  call_layers (layers m) ws x.


End keras.

(** ** The syntax of the notebook's code cells

    The constructors follow Python's [ast] module.  [Try] stands for the
    statement that handles errors ([try: body except: handler]); the
    notebook has none, and the syntax has it so that this can be said. *)

Module py.

Inductive operator : Type := Mult | Div.

Inductive expr : Type :=
| Name (id : string)
| Attribute (value : expr) (attr : string)
| Call (func : expr) (args : list expr) (keywords : list (string * expr))
| Num (n : Z)
| Str (s : string)
| Tuple (elts : list expr)
| List_ (elts : list expr)
| BinOp (left : expr) (op : operator) (right : expr).

Inductive stmt : Type :=
| Import (name : string)
| ImportFrom (module : string) (name : string)
| Assign (target : expr) (value : expr)
| Expr (value : expr)
| Try (body : list stmt) (handler : list stmt).

(** The variables an expression reads. *)
Fixpoint names (e : expr) : list string :=
  match e with
  | Name id => [id]
  | Attribute v _ => names v
  | Call f args kws =>
      names f ++ flat_map names args
              ++ flat_map (fun kw => match kw with (_, v) => names v end) kws
  | Num _ | Str _ => []
  | Tuple es | List_ es => flat_map names es
  | BinOp l _ r => names l ++ names r
  end.

(** The dotted name of what a call calls: [network.fit], [print]. *)
Fixpoint dotted (e : expr) : string :=
  match e with
  | Name id => id
  | Attribute v a => dotted v ++ "." ++ a
  | _ => EmptyString
  end.

(** The calls an expression makes, in the order Python makes them: the
    arguments of a call are evaluated before the call itself. *)
Fixpoint calls (e : expr) : list string :=
  match e with
  | Name _ | Num _ | Str _ => []
  | Attribute v _ => calls v
  | Call f args kws =>
      calls f ++ flat_map calls args
              ++ flat_map (fun kw => match kw with (_, v) => calls v end) kws
              ++ [dotted f]
  | Tuple es | List_ es => flat_map calls es
  | BinOp l _ r => calls l ++ calls r
  end.

(** The variables a statement binds, and those it reads. *)
Fixpoint assigned (s : stmt) : list string :=
  match s with
  | Import n => [n]
  | ImportFrom _ n => [n]
  | Assign t _ => names t
  | Expr _ => []
  | Try body handler => flat_map assigned body ++ flat_map assigned handler
  end.

Fixpoint reads (s : stmt) : list string :=
  match s with
  | Import _ | ImportFrom _ _ => []
  | Assign _ v => names v
  | Expr v => names v
  | Try body handler => flat_map reads body ++ flat_map reads handler
  end.

Fixpoint stmt_calls (s : stmt) : list string :=
  match s with
  | Import _ | ImportFrom _ _ => []
  | Assign _ v => calls v
  | Expr v => calls v
  | Try body handler =>
      flat_map stmt_calls body ++ flat_map stmt_calls handler
  end.

(** No error handler in a statement. *)
Definition handler_free (s : stmt) : bool :=
  match s with
  | Try _ _ => false
  | _ => true
  end.

(** *** Running statements

    What a library call does is left open: [simple s st] is the state
    after the statement [s] (an import, an assignment or an expression)
    and the exception it raised, if any.  Statements run one after the
    other; an exception ends the block it is raised in, and a [Try]
    resumes with its handler.  A run also yields its trace: the
    statements run, each with the exception it raised. *)

Definition event : Type := (stmt * option exn)%type.

Section Exec.

Variable state : Type.
Variable simple : stmt -> state -> state * option exn.

Definition outcome : Type := (state * option exn * list event)%type.

Definition seq_outcome (o : outcome) (k : state -> outcome) : outcome :=
  match o with
  | (st, None, tr) =>
      match k st with
      | (st', r, tr') => (st', r, tr ++ tr')
      end
  | (st, Some e, tr) => (st, Some e, tr)
  end.

Fixpoint exec (s : stmt) (st : state) : outcome :=
  let block :=
    fix block (ss : list stmt) (st : state) : outcome :=
      match ss with
      | [] => (st, None, [])
      | s' :: ss' => seq_outcome (exec s' st) (block ss')
      end in
  match s with
  | Try body handler =>
      match block body st with
      | (st', None, tr) => (st', None, tr)
      | (st', Some _, tr) =>
          match block handler st' with
          | (st'', r, tr') => (st'', r, tr ++ tr')
          end
      end
  | _ =>
      match simple s st with
      | (st', r) => (st', r, [(s, r)])
      end
  end.

Fixpoint exec_block (ss : list stmt) (st : state) : outcome :=
  match ss with
  | [] => (st, None, [])
  | s :: ss' => seq_outcome (exec s st) (exec_block ss')
  end.

End Exec.

(** The statements run in a trace. *)
Definition ran (tr : list event) : list stmt := map fst tr.

(** The event of a statement that raised nothing. *)
Definition quiet (s : stmt) : event := (s, None).

End py.

(** ** The notebook *)

Module nb.

Import py.
Local Open Scope string_scope.
Local Open Scope list_scope.

(** *** The code cells, as they are in the file

    [position] is the index of the cell among all cells of the notebook,
    [execution_count] the number the saved session gave it. *)

Record cell : Type := mk_cell {
  position : nat;
  execution_count : option nat;
  source : list stmt
}.

Definition call0 (f : expr) (args : list expr) : expr := Call f args [].
Definition method (obj : string) (m : string) : expr :=
  Attribute (Name obj) m.

Definition cell7 : cell := mk_cell 7 None
  [ Import "keras";
    Expr (Attribute (Name "keras") "__version__") ].

Definition cell10 : cell := mk_cell 10 (Some 2%nat)
  [ ImportFrom "keras.datasets" "mnist";
    Assign (Tuple [ Tuple [Name "train_images"; Name "train_labels"];
                    Tuple [Name "test_images"; Name "test_labels"] ])
           (call0 (method "mnist" "load_data") []) ].

Definition cell12 : cell := mk_cell 12 (Some 3%nat)
  [ Expr (method "train_images" "shape") ].

Definition cell13 : cell := mk_cell 13 (Some 4%nat)
  [ Expr (call0 (Name "len") [Name "train_labels"]) ].

Definition cell14 : cell := mk_cell 14 (Some 5%nat)
  [ Expr (Name "train_labels") ].

Definition cell16 : cell := mk_cell 16 (Some 6%nat)
  [ Expr (method "test_images" "shape") ].

Definition cell17 : cell := mk_cell 17 (Some 7%nat)
  [ Expr (call0 (Name "len") [Name "test_labels"]) ].

Definition cell18 : cell := mk_cell 18 (Some 8%nat)
  [ Expr (Name "test_labels") ].

Definition cell20 : cell := mk_cell 20 (Some 9%nat)
  [ ImportFrom "keras" "models";
    ImportFrom "keras" "layers";
    Assign (Name "network") (call0 (method "models" "Sequential") []);
    Expr (call0 (method "network" "add")
            [ Call (method "layers" "Dense") [Num 512]
                [ ("activation", Str "relu");
                  ("input_shape", Tuple [BinOp (Num 28) Mult (Num 28)]) ] ]);
    Expr (call0 (method "network" "add")
            [ Call (method "layers" "Dense") [Num 10]
                [ ("activation", Str "softmax") ] ]) ].

Definition cell22 : cell := mk_cell 22 (Some 10%nat)
  [ Expr (Call (method "network" "compile") []
            [ ("optimizer", Str "rmsprop");
              ("loss", Str "categorical_crossentropy");
              ("metrics", List_ [Str "accuracy"]) ]) ].

Definition cell24 : cell := mk_cell 24 (Some 11%nat)
  [ Assign (Name "train_images")
      (call0 (method "train_images" "reshape")
         [Tuple [Num 60000; BinOp (Num 28) Mult (Num 28)]]);
    Assign (Name "train_images")
      (BinOp (call0 (method "train_images" "astype") [Str "float32"])
             Div (Num 255));
    Assign (Name "test_images")
      (call0 (method "test_images" "reshape")
         [Tuple [Num 10000; BinOp (Num 28) Mult (Num 28)]]);
    Assign (Name "test_images")
      (BinOp (call0 (method "test_images" "astype") [Str "float32"])
             Div (Num 255)) ].

Definition cell26 : cell := mk_cell 26 (Some 12%nat)
  [ ImportFrom "keras.utils" "to_categorical";
    Assign (Name "train_labels")
      (call0 (Name "to_categorical") [Name "train_labels"]);
    Assign (Name "test_labels")
      (call0 (Name "to_categorical") [Name "test_labels"]) ].

Definition cell28 : cell := mk_cell 28 (Some 13%nat)
  [ Expr (Call (method "network" "fit")
            [Name "train_images"; Name "train_labels"]
            [ ("epochs", Num 5); ("batch_size", Num 128) ]) ].

Definition cell30 : cell := mk_cell 30 (Some 14%nat)
  [ Assign (Tuple [Name "test_loss"; Name "test_acc"])
      (call0 (method "network" "evaluate")
         [Name "test_images"; Name "test_labels"]) ].

Definition cell31 : cell := mk_cell 31 (Some 15%nat)
  [ Expr (call0 (Name "print") [Str "test_acc:"; Name "test_acc"]) ].

Definition cell37 : cell := mk_cell 37 None [].

Definition cells : list cell :=
  [ cell7; cell10; cell12; cell13; cell14; cell16; cell17; cell18;
    cell20; cell22; cell24; cell26; cell28; cell30; cell31; cell37 ].

(** The statements of the notebook, top to bottom. *)
Definition program : list stmt := flat_map source cells.

(** A run of the notebook from the state [st]. *)
Definition run (state : Type) (simple : stmt -> state -> state * option exn)
           (st : state) : outcome state :=
  exec_block simple program st.

(** The calls of a list of statements, in order. *)
Definition calls_of (ss : list stmt) : list string :=
  flat_map stmt_calls ss.

(** [a] comes before [b] in [l]. *)
Definition precedes (A : Type) (a b : A) (l : list A) : Prop :=
  exists l1 l2 l3, l = l1 ++ a :: l2 ++ b :: l3.

(** The items of [l] before the first [b]. *)
Fixpoint before (b : string) (l : list string) : list string :=
  match l with
  | [] => []
  | x :: l' => if String.eqb x b then [] else x :: before b l'
  end.

Definition mentions (v : string) (l : list string) : bool :=
  existsb (String.eqb v) l.

(** If [ss] calls [b] at all, it calls [a] before. *)
Definition calls_in_order (a b : string) (ss : list stmt) : bool :=
  negb (mentions b (calls_of ss)) || mentions a (before b (calls_of ss)).

(** The numbers the saved session gave the cells it ran, top to
    bottom. *)
Definition execution_counts : list nat :=
  flat_map (fun c => match execution_count c with
                     | Some n => [n]
                     | None => []
                     end) cells.

(** *** The life of a variable *)

(** The statements that bind [v] to what the dataset loader returns. *)
Definition loads (v : string) (ss : list stmt) : nat :=
  List.length
    (filter (fun s => mentions v (assigned s)
                      && mentions "mnist.load_data" (stmt_calls s)) ss).

(** The statements that bind [v] to a value computed from [v]. *)
Definition transforms (v : string) (ss : list stmt) : nat :=
  List.length
    (filter (fun s => mentions v (assigned s) && mentions v (reads s)) ss).

(** The statements that read [v]. *)
Definition readers (v : string) (ss : list stmt) : list stmt :=
  filter (fun s => mentions v (reads s)) ss.

(** What is left of [ss] after the last statement that binds [v]. *)
Fixpoint after_last_binding (v : string) (ss : list stmt) : list stmt :=
  match ss with
  | [] => []
  | s :: ss' =>
      if existsb (fun s' => mentions v (assigned s')) ss'
      then after_last_binding v ss'
      else if mentions v (assigned s) then ss' else s :: ss'
  end.

(** The statements that read [v] once it has its final value. *)
Definition uses_of_final (v : string) (ss : list stmt) : list stmt :=
  readers v (after_last_binding v ss).

(** The statements of cells 28 and 30. *)
Definition fit_stmt : stmt := nth 0 (source cell28) (Import EmptyString).
Definition evaluate_stmt : stmt := nth 0 (source cell30) (Import EmptyString).

Definition arrays : list string :=
  ["train_images"; "train_labels"; "test_images"; "test_labels"].

(** *** What the cells compute *)

(** The four arrays [mnist.load_data()] returns (cell 10). *)
Record dataset : Type := mk_dataset {
  train_images : np.ndarray Z;
  train_labels : np.ndarray Z;
  test_images : np.ndarray Z;
  test_labels : np.ndarray Z
}.

(** The arrays as the saved session shows them (cells 12 to 18): 60000
    and 10000 images of 28 by 28 [uint8] items, and as many [uint8]
    labels. *)
Record mnist_shaped (d : dataset) : Prop := mk_mnist_shaped {
  train_images_shape : np.shape (train_images d) = [60000; 28; 28]%N;
  train_images_wf : np.wf (train_images d);
  train_images_uint8 : np.is_uint8 (train_images d);
  train_labels_shape : np.shape (train_labels d) = [60000]%N;
  train_labels_wf : np.wf (train_labels d);
  train_labels_uint8 : np.is_uint8 (train_labels d);
  test_images_shape : np.shape (test_images d) = [10000; 28; 28]%N;
  test_images_wf : np.wf (test_images d);
  test_images_uint8 : np.is_uint8 (test_images d);
  test_labels_shape : np.shape (test_labels d) = [10000]%N;
  test_labels_wf : np.wf (test_labels d);
  test_labels_uint8 : np.is_uint8 (test_labels d)
}.

(** Cell 20: [network] once both layers are added. *)
Definition network : keras.model :=
  keras.add
    (keras.add keras.Sequential
       (keras.Dense 512 keras.relu (Some [28 * 28]%N)))
    (keras.Dense 10 keras.softmax None).

(** Cell 22. *)
Definition compiled_network : keras.model :=
  keras.compile network
    (keras.mk_compile_args "rmsprop" "categorical_crossentropy"
                           ["accuracy"]).

(** Cell 24, for one array of [count] images:
    [images = images.reshape((count, 28 * 28))] and then
    [images = images.astype('float32') / 255]. *)
Definition scale_images (count : N) (images : np.ndarray Z)
  : result (np.ndarray Float32.float32) :=
  images <- np.reshape images [count; 28 * 28]%N ;;
  Ok (np.true_divide (np.astype_float32 images) 255).

(** What cell 24 makes of one pixel. *)
Definition scale_pixel (k : Z) : Float32.float32 :=
  Float32.div (Float32.of_Z k) (Float32.of_Z 255).

(** Cell 26, for one array of labels. *)
Definition encode_labels (labels : np.ndarray Z)
  : result (np.ndarray Float64.float64) :=
  keras.to_categorical labels None.

(** The arrays [fit] and [evaluate] are called on. *)
Record prepared : Type := mk_prepared {
  x_train : np.ndarray Float32.float32;
  y_train : np.ndarray Float64.float64;
  x_test : np.ndarray Float32.float32;
  y_test : np.ndarray Float64.float64
}.

(** Cells 24 and 26 on the loaded arrays. *)
Definition preprocess (d : dataset) : result prepared :=
  tr_images <- scale_images 60000 (train_images d) ;;
  te_images <- scale_images 10000 (test_images d) ;;
  tr_labels <- encode_labels (train_labels d) ;;
  te_labels <- encode_labels (test_labels d) ;;
  Ok (mk_prepared tr_images tr_labels te_images te_labels).

(** [x] and [y] are [n] samples and their [n] targets, sample [i] made
    of image [i] and target [i] of label [i]: the items of row [i] of
    [x] are the scaled pixels of image [i], and row [i] of [y] is 1 at
    label [i] and 0 elsewhere. *)
Definition paired (n : N) (images labels : np.ndarray Z)
           (x : np.ndarray Float32.float32)
           (y : np.ndarray Float64.float64) : Prop :=
  np.len images = Ok n /\ np.len labels = Ok n
  /\ np.len x = Ok n /\ np.len y = Ok n
  /\ exists k,
       np.shape y = [n; k]%N
       /\ forall i, (i < n)%N ->
            (forall r c, (r < 28)%N -> (c < 28)%N ->
               exists v, np.item images [i; r; c]%N = Ok v
                         /\ np.item x [i; 28 * r + c]%N
                            = Ok (scale_pixel v))
            /\ exists l,
                 np.item labels [i] = Ok l
                 /\ forall j, (j < k)%N ->
                      np.item y [i; j]
                      = Ok (if (Z.of_N j =? l)%Z then Float64.one
                            else Float64.zero).

End nb.

(** ** Observations on values and on the code *)

(** The rational number a binary32 value stands for (0 when it is not
    finite). *)
Definition float32_to_Q (x : Float32.float32) : Q :=
  match x with
  | S754_finite s m e =>
      ((if s then inject_Z (-1) else inject_Z 1)
       * inject_Z (Zpos m) * Qpower (inject_Z 2) e)%Q
  | _ => inject_Z 0
  end.



(** The builtins of Python the notebook calls. *)
Definition builtins : list string := ["len"%string; "print"%string].

(** Every statement of [ss] reads only names of [bound] or names a
    statement before it has bound. *)
Fixpoint well_scoped (bound : list string) (ss : list py.stmt) : bool :=
  match ss with
  | [] => true
  | s :: ss' =>
      forallb (fun v => nb.mentions v bound) (py.reads s)
      && well_scoped (py.assigned s ++ bound) ss'
  end.

(** The statements of [ss] that bind [v]. *)
Definition bindings (v : string) (ss : list py.stmt) : list py.stmt :=
  filter (fun s => nb.mentions v (py.assigned s)) ss.

(** What cell 24 makes of the 256 [uint8] values, in their order. *)
Definition scaled_pixels : list Float32.float32 :=
  map (fun n => nb.scale_pixel (Z.of_nat n)) (seq 0 256).

(** Every item of [l] is below all the items after it. *)
Fixpoint strongly_increasing (l : list Float32.float32) : bool :=
  match l with
  | [] => true
  | a :: rest => forallb (fun b => SFltb a b) rest && strongly_increasing rest
  end.

(** ** Sample inputs *)

(** A dataset of the sizes of MNIST: black images, all labelled 0. *)
Definition blank_dataset : nb.dataset :=
  nb.mk_dataset
    (np.mk_ndarray [60000; 28; 28]%N (repeat 0%Z (N.to_nat 47040000)))
    (np.mk_ndarray [60000]%N (repeat 0%Z (N.to_nat 60000)))
    (np.mk_ndarray [10000; 28; 28]%N (repeat 0%Z (N.to_nat 7840000)))
    (np.mk_ndarray [10000]%N (repeat 0%Z (N.to_nat 10000))).


(** A library in which the first [reshape] finds an array of another
    size; the state counts the statements that ran quietly. *)
Definition failing_reshape (s : py.stmt) (n : nat) : nat * option exn :=
  if nb.mentions "train_images.reshape" (py.stmt_calls s)
  then (n, Some ValueError)
  else (S n, None).

(** * Properties *)

Unset Implicit Arguments.

(** ** The error monad *)

Lemma bind_Ok {A B : Type} (m : result A) (k : A -> result B) (b : B) :
  bind m k = Ok b -> exists a, m = Ok a /\ k a = Ok b.
Proof.
  destruct m as [a | e]; simpl; intros H; [exists a; auto | discriminate].
Qed.

(** ** Arrays: reshaping and indexing *)

Section Reshape.

Context {A : Type}.
Implicit Types a b : np.ndarray A.

Lemma size_flat (count : N) :
  np.size [count; 28 * 28]%N = np.size [count; 28; 28]%N.
Proof. unfold np.size; simpl fold_right. lia. Qed.

Lemma reshape_Ok a newshape :
  np.size newshape = np.size (np.shape a) ->
  np.reshape a newshape = Ok (np.mk_ndarray newshape (np.data a)).
Proof.
  intros H. unfold np.reshape. now rewrite H, N.eqb_refl.
Qed.

Lemma reshape_inv a newshape b :
  np.reshape a newshape = Ok b ->
  np.shape b = newshape /\ np.data b = np.data a
  /\ np.size newshape = np.size (np.shape a).
Proof.
  unfold np.reshape.
  destruct (N.eqb_spec (np.size newshape) (np.size (np.shape a))) as [E | E];
    [ | discriminate ].
  intros H; injection H as <-. auto.
Qed.

(** Reshaping keeps the buffer as long as the shape says. *)
Lemma reshape_wf a newshape b :
  np.wf a -> np.reshape a newshape = Ok b -> np.wf b.
Proof.
  intros Hwf H. apply reshape_inv in H as (Hs & Hd & Hsz).
  unfold np.wf in *. now rewrite Hs, Hd, Hsz.
Qed.

Lemma ravel3 (n h w i r c : N) :
  (i < n)%N -> (r < h)%N -> (c < w)%N ->
  np.ravel_multi_index [n; h; w] [i; r; c] 0 = Ok ((i * h + r) * w + c)%N.
Proof.
  intros Hi Hr Hc. simpl.
  apply N.ltb_lt in Hi, Hr, Hc. now rewrite Hi, Hr, Hc.
Qed.

Lemma ravel2 (n w i j : N) :
  (i < n)%N -> (j < w)%N ->
  np.ravel_multi_index [n; w] [i; j] 0 = Ok (i * w + j)%N.
Proof.
  intros Hi Hj. simpl. apply N.ltb_lt in Hi, Hj. now rewrite Hi, Hj.
Qed.

(** An offset below the length of the buffer holds an item. *)
Lemma buffer_item (buf : list A) (off : N) :
  (off < N.of_nat (length buf))%N ->
  exists v, nth_error buf (N.to_nat off) = Some v.
Proof.
  intros H.
  destruct (nth_error buf (N.to_nat off)) as [v | ] eqn:E; [now exists v | ].
  apply nth_error_None in E. lia.
Qed.

(** Every column index of the flat shape is [28 * r + c] for one row
    and one column of the image. *)
Lemma split_column (j : N) :
  (j < 784)%N ->
  exists r c, (r < 28)%N /\ (c < 28)%N /\ j = (28 * r + c)%N
    /\ forall r' c', (r' < 28)%N -> (c' < 28)%N -> j = (28 * r' + c')%N ->
                     r' = r /\ c' = c.
Proof.
  intros Hj. exists (j / 28)%N, (j mod 28)%N.
  assert (Hdm : j = (28 * (j / 28) + j mod 28)%N)
    by (apply N.div_mod; discriminate).
  assert (Hm : (j mod 28 < 28)%N) by (apply N.mod_lt; discriminate).
  generalize dependent (j mod 28)%N. generalize (j / 28)%N.
  intros q m Hdm Hm. repeat split; try lia.
Qed.

(** The item at [(i, 28 * r + c)] under the flat shape is the item at
    [(i, r, c)] under the shape of images. *)
Lemma item_flatten (buf : list A) (count i r c : N) :
  (i < count)%N -> (r < 28)%N -> (c < 28)%N ->
  np.item (np.mk_ndarray [count; 784]%N buf) [i; 28 * r + c]%N
  = np.item (np.mk_ndarray [count; 28; 28]%N buf) [i; r; c].
Proof.
  intros Hi Hr Hc. unfold np.item. cbn [np.shape np.data].
  rewrite ravel3, ravel2 by lia.
  replace ((i * 28 + r) * 28 + c)%N with (i * 784 + (28 * r + c))%N by lia.
  reflexivity.
Qed.

(** Every pixel of an array of images is there. *)
Lemma item_image (buf : list A) (count i r c : N) :
  N.of_nat (length buf) = (count * 784)%N ->
  (i < count)%N -> (r < 28)%N -> (c < 28)%N ->
  exists v, np.item (np.mk_ndarray [count; 28; 28]%N buf) [i; r; c] = Ok v.
Proof.
  intros Hlen Hi Hr Hc.
  destruct (buffer_item buf ((i * 28 + r) * 28 + c)%N) as [v Hv]; [nia | ].
  exists v. unfold np.item. cbn [np.shape np.data].
  rewrite ravel3 by assumption. simpl bind. now rewrite Hv.
Qed.

(** An item of an array mapped through [f] is [f] of the item. *)
Lemma item_of_map {B : Type} (f : A -> B) (shp : list N) (buf : list A)
      (idx : list N) (v : A) :
  np.item (np.mk_ndarray shp buf) idx = Ok v ->
  np.item (np.mk_ndarray shp (map f buf)) idx = Ok (f v).
Proof.
  unfold np.item. cbn [np.shape np.data].
  destruct (np.ravel_multi_index shp idx 0) as [off | e]; simpl;
    [ | discriminate].
  rewrite nth_error_map.
  destruct (nth_error buf (N.to_nat off)); simpl; congruence.
Qed.

End Reshape.

(** C9.  The reshape of cell 24, from [(count, 28, 28)] to
    [(count, 28 * 28)], moves no value: the pixel at [(i, r, c)] is the
    item at [(i, 28 * r + c)]; every item [(i, j)] of the result is the
    pixel of exactly one [(r, c)]; the buffer is the same, item for item;
    and reshaping back to [(count, 28, 28)] gives the array started
    from. *)
Theorem reshape_flatten_bijection (A : Type) (a : np.ndarray A) (count : N) :
  np.wf a ->
  np.shape a = [count; 28; 28]%N ->
  exists b,
    np.reshape a [count; 28 * 28]%N = Ok b
    /\ np.shape b = [count; 784]%N
    /\ np.data b = np.data a
    /\ (forall i r c, (i < count)%N -> (r < 28)%N -> (c < 28)%N ->
        exists v, np.item a [i; r; c] = Ok v
                  /\ np.item b [i; 28 * r + c]%N = Ok v)
    /\ (forall i j, (i < count)%N -> (j < 784)%N ->
        exists r c,
          (r < 28)%N /\ (c < 28)%N /\ j = (28 * r + c)%N
          /\ np.item b [i; j] = np.item a [i; r; c]
          /\ forall r' c', (r' < 28)%N -> (c' < 28)%N ->
                           j = (28 * r' + c')%N -> r' = r /\ c' = c)
    /\ np.reshape b [count; 28; 28]%N = Ok a.
Proof.
  intros Hwf Hshape.
  destruct a as [shp buf]. unfold np.wf in Hwf. simpl in Hwf, Hshape. subst shp.
  exists (np.mk_ndarray [count; 784]%N buf).
  assert (Hlen : N.of_nat (length buf) = (count * 784)%N).
  { rewrite Hwf. unfold np.size; simpl fold_right. lia. }
  split; [ | split; [ | split; [ | split; [ | split ] ] ] ].
  - apply reshape_Ok, size_flat.
  - reflexivity.
  - reflexivity.
  - intros i r c Hi Hr Hc.
    destruct (item_image buf count i r c Hlen Hi Hr Hc) as [v Hv].
    exists v. now rewrite item_flatten.
  - intros i j Hi Hj.
    destruct (split_column j Hj) as (r & c & Hr & Hc & -> & Huniq).
    exists r, c.
    split; [exact Hr | ]. split; [exact Hc | ]. split; [reflexivity | ].
    split; [now apply item_flatten | exact Huniq].
  - apply reshape_Ok. symmetry. apply size_flat.
Qed.

(** The theorem at an array of two images whose pixels are all
    different. *)
Lemma reshape_flatten_bijection_witness :
  let a := np.mk_ndarray [2; 28; 28]%N (map Z.of_nat (seq 0 1568)) in
  exists b,
    np.reshape a [2; 28 * 28]%N = Ok b
    /\ np.shape b = [2; 784]%N
    /\ np.data b = np.data a
    /\ (forall i r c, (i < 2)%N -> (r < 28)%N -> (c < 28)%N ->
        exists v, np.item a [i; r; c] = Ok v
                  /\ np.item b [i; 28 * r + c]%N = Ok v)
    /\ (forall i j, (i < 2)%N -> (j < 784)%N ->
        exists r c,
          (r < 28)%N /\ (c < 28)%N /\ j = (28 * r + c)%N
          /\ np.item b [i; j] = np.item a [i; r; c]
          /\ forall r' c', (r' < 28)%N -> (c' < 28)%N ->
                           j = (28 * r' + c')%N -> r' = r /\ c' = c)
    /\ np.reshape b [2; 28; 28]%N = Ok a.
Proof.
  intro a.
  apply (reshape_flatten_bijection Z a 2%N); vm_compute; reflexivity.
Defined.

(** ** Scaling the pixels (cell 24) *)

Example scale_pixel_0 : nb.scale_pixel 0 = Float32.zero.
Proof. reflexivity. Qed.

Example scale_pixel_255 : nb.scale_pixel 255 = Float32.one.
Proof. reflexivity. Qed.

(** 1/255 in binary32 is 8421505 * 2^-31 (0x3B808081). *)
Example scale_pixel_1 : nb.scale_pixel 1 = S754_finite false 8421505 (-31).
Proof. reflexivity. Qed.

Lemma scale_pixel_table :
  forallb (fun n => Float32.in_unit_interval (nb.scale_pixel (Z.of_nat n)))
          (seq 0 256) = true.
Proof. vm_compute. reflexivity. Qed.

(** Every [uint8] value is scaled to a binary32 number from 0 to 1. *)
Lemma scale_pixel_unit (k : Z) :
  (0 <= k <= 255)%Z -> Float32.in_unit_interval (nb.scale_pixel k) = true.
Proof.
  intros Hk.
  pose proof scale_pixel_table as T.
  rewrite forallb_forall in T.
  specialize (T (Z.to_nat k)).
  rewrite Z2Nat.id in T by lia.
  apply T, in_seq. lia.
Qed.

Lemma scale_images_data (count : N) (images : np.ndarray Z)
      (out : np.ndarray Float32.float32) :
  nb.scale_images count images = Ok out ->
  np.shape out = [count; 28 * 28]%N
  /\ np.data out = map nb.scale_pixel (np.data images)
  /\ np.size [count; 28 * 28]%N = np.size (np.shape images).
Proof.
  unfold nb.scale_images. intros H.
  apply bind_Ok in H as (flat & Hflat & H). injection H as <-.
  apply reshape_inv in Hflat as (Hs & Hd & Hsz).
  cbn [np.true_divide np.astype_float32 np.shape np.data].
  rewrite Hs, Hd, map_map. auto.
Qed.

Lemma scale_images_Ok (count : N) (images : np.ndarray Z) :
  np.shape images = [count; 28; 28]%N ->
  exists out, nb.scale_images count images = Ok out.
Proof.
  intros Hshape. unfold nb.scale_images.
  rewrite reshape_Ok by (rewrite Hshape; apply size_flat).
  simpl bind. eauto.
Qed.

(** The count written in the call is the count of the array, or the
    reshape is refused. *)
Lemma scale_images_mismatch (count n : N) (images : np.ndarray Z) :
  np.shape images = [n; 28; 28]%N ->
  n <> count ->
  nb.scale_images count images = Raise ValueError.
Proof.
  intros Hshape Hne. unfold nb.scale_images, np.reshape. rewrite Hshape.
  destruct (N.eqb_spec (np.size [count; 28 * 28]%N) (np.size [n; 28; 28]%N))
    as [E | _]; [ | reflexivity].
  unfold np.size in E. simpl fold_right in E. lia.
Qed.

(** C1.  On an array of [count] images of 28 by 28 [uint8] values, cell 24
    returns an array of shape [(count, 784)] whose items are binary32
    numbers from 0 to 1, each the pixel it comes from divided by 255. *)
Theorem scale_images_unit_interval (count : N) (images : np.ndarray Z) :
  np.wf images ->
  np.shape images = [count; 28; 28]%N ->
  np.is_uint8 images ->
  exists out,
    nb.scale_images count images = Ok out
    /\ np.shape out = [count; 784]%N
    /\ np.wf out
    /\ np.data out = map nb.scale_pixel (np.data images)
    /\ Forall (fun x => Float32.in_unit_interval x = true) (np.data out).
Proof.
  intros Hwf Hshape Hu8.
  destruct (scale_images_Ok count images Hshape) as [out Hout].
  exists out. split; [exact Hout | ].
  apply scale_images_data in Hout as (Hs & Hd & Hsz).
  split; [exact Hs | ]. split; [ | split; [exact Hd | ] ].
  - unfold np.wf in *. now rewrite Hs, Hd, Hsz, length_map.
  - rewrite Hd. apply Forall_map.
    unfold np.is_uint8 in Hu8.
    eapply Forall_impl; [ | exact Hu8]. apply scale_pixel_unit.
Qed.

(** The theorem at two images that hold every [uint8] value. *)
Lemma scale_images_unit_interval_witness :
  let images :=
    np.mk_ndarray [2; 28; 28]%N
                  (map (fun n => Z.of_nat n mod 256)%Z (seq 0 1568)) in
  exists out,
    nb.scale_images 2 images = Ok out
    /\ np.shape out = [2; 784]%N
    /\ np.wf out
    /\ np.data out = map nb.scale_pixel (np.data images)
    /\ Forall (fun x => Float32.in_unit_interval x = true) (np.data out).
Proof.
  intro images.
  apply (scale_images_unit_interval 2 images).
  - vm_compute. reflexivity.
  - reflexivity.
  - unfold np.is_uint8, images. cbn [np.data].
    apply Forall_map, Forall_forall. intros n _.
    pose proof (Z.mod_pos_bound (Z.of_nat n) 256 eq_refl). lia.
Defined.

(** ** One-hot encoding (cell 26) *)

Section ToCategorical.

Import keras.

Lemma fold_max_ge (l : list Z) (a : Z) :
  (a <= fold_left Z.max l a)%Z
  /\ Forall (fun y => y <= fold_left Z.max l a)%Z l.
Proof.
  revert a. induction l as [ | y l IH]; intros a; simpl.
  - split; [lia | constructor].
  - destruct (IH (Z.max a y)) as [H1 H2]. split; [lia | ].
    constructor; [lia | exact H2].
Qed.

Lemma fold_max_In (l : list Z) (a : Z) : In (fold_left Z.max l a) (a :: l).
Proof.
  revert a. induction l as [ | y l IH]; intros a; simpl.
  - now left.
  - destruct (IH (Z.max a y)) as [H | H].
    + rewrite <- H.
      destruct (Z.max_spec a y) as [[_ E] | [_ E]]; rewrite E; auto.
    + auto.
Qed.

(** [np.max] returns an item of the array that no item exceeds. *)
Lemma amax_spec (ys : list Z) :
  ys <> [] ->
  exists m, amax ys = Ok m /\ In m ys /\ Forall (fun y => y <= m)%Z ys.
Proof.
  destruct ys as [ | y ys]; [congruence | intros _].
  exists (fold_left Z.max ys y). simpl amax.
  destruct (fold_max_ge ys y) as [H1 H2].
  split; [reflexivity | split; [apply fold_max_In | now constructor] ].
Qed.

Lemma setitem_spec {A : Type} (buf : list A) (p : nat) (v : A) :
  (p < length buf)%nat ->
  exists buf',
    setitem buf p v = Ok buf'
    /\ length buf' = length buf
    /\ nth_error buf' p = Some v
    /\ forall q, q <> p -> nth_error buf' q = nth_error buf q.
Proof.
  revert p. induction buf as [ | x buf IH]; intros p Hp; simpl in Hp.
  - lia.
  - destruct p as [ | p].
    + exists (v :: buf). simpl. repeat split.
      intros [ | q] Hq; [congruence | reflexivity].
    + destruct (IH p) as (buf' & E & Hlen & Hp' & Hq'); [lia | ].
      exists (x :: buf'). simpl. rewrite E. simpl.
      repeat split; [now rewrite Hlen | exact Hp' | ].
      intros [ | q] Hq; [reflexivity | ]. simpl. apply Hq'. congruence.
Qed.

Lemma hit_cons (i : N) (y : Z) (ys : list Z) (r j : N) :
  hit i (y :: ys) r j
  = if (r =? i)%N then (y =? Z.of_N j)%Z else hit (N.succ i) ys r j.
Proof.
  unfold keras.hit.
  destruct (N.eqb_spec r i) as [-> | Hne].
  - rewrite N.leb_refl, N.sub_diag. reflexivity.
  - destruct (N.leb_spec i r) as [Hle | Hgt].
    + assert (E : N.to_nat (r - i) = S (N.to_nat (r - N.succ i))) by lia.
      rewrite E. simpl nth_error.
      destruct (N.leb_spec (N.succ i) r); [reflexivity | lia].
    + destruct (N.leb_spec (N.succ i) r); [lia | reflexivity].
Qed.

Lemma assign_ones_spec (k : Z) (ys : list Z) :
  (0 < k)%Z ->
  Forall (fun y => 0 <= y < k)%Z ys ->
  forall (i : N) (buf : list Float64.float64),
    (N.to_nat ((i + N.of_nat (length ys)) * Z.to_N k) <= length buf)%nat ->
    exists buf',
      assign_ones k i ys buf = Ok buf'
      /\ length buf' = length buf
      /\ forall r j, (j < Z.to_N k)%N ->
           nth_error buf' (N.to_nat (r * Z.to_N k + j))
           = if hit i ys r j then Some Float64.one
             else nth_error buf (N.to_nat (r * Z.to_N k + j)).
Proof.
  intros Hk Hys. induction Hys as [ | y ys Hy Hys IH]; intros i buf Hlen.
  - exists buf. simpl. repeat split. intros r j _.
    unfold keras.hit.
    destruct (N.to_nat (r - i)); simpl; now rewrite andb_false_r.
  - simpl assign_ones. unfold normalize_index.
    replace ((0 <=? y)%Z && (y <? k)%Z) with true
      by (symmetry; apply andb_true_iff; split;
          [apply Z.leb_le | apply Z.ltb_lt]; lia).
    simpl bind. simpl length in Hlen.
    destruct (setitem_spec buf (N.to_nat (i * Z.to_N k + Z.to_N y))
                           Float64.one)
      as (buf1 & E1 & Hlen1 & Hset & Hother); [nia | ].
    rewrite E1. simpl bind.
    destruct (IH (N.succ i) buf1) as (buf' & E' & Hlen' & Hspec); [nia | ].
    exists buf'. split; [exact E' | split; [congruence | ] ].
    intros r j Hj. rewrite Hspec by exact Hj. rewrite hit_cons.
    destruct (N.eqb_spec r i) as [-> | Hne].
    + assert (Hno : hit (N.succ i) ys i j = false).
      { unfold keras.hit.
        destruct (N.leb_spec (N.succ i) i); [lia | reflexivity]. }
      rewrite Hno.
      destruct (Z.eqb_spec y (Z.of_N j)) as [-> | Hyj].
      * now rewrite N2Z.id in Hset.
      * apply Hother. nia.
    + destruct (hit (N.succ i) ys r j); [reflexivity | ].
      apply Hother. nia.
Qed.

End ToCategorical.

Lemma squeeze_last_1d (n : N) : keras.squeeze_last [n] = [n].
Proof.
  unfold keras.squeeze_last. simpl. now destruct n as [ | [p | p | ] ].
Qed.

(** [to_categorical] on a one-dimensional array of [n > 0] labels, none
    negative: the result has [n] rows and one column more than the
    largest label, and row [i] is 1 at the label of [i] and 0 elsewhere. *)
Lemma to_categorical_spec (labels : np.ndarray Z) (n : N) :
  np.wf labels ->
  np.shape labels = [n] ->
  (0 < n)%N ->
  Forall (fun l => 0 <= l)%Z (np.data labels) ->
  exists m c,
    keras.amax (np.data labels) = Ok m
    /\ keras.to_categorical labels None = Ok c
    /\ np.shape c = [n; Z.to_N (m + 1)]
    /\ np.wf c
    /\ forall i j, (i < n)%N -> (j < Z.to_N (m + 1))%N ->
         exists l,
           np.item labels [i] = Ok l
           /\ np.item c [i; j]
              = Ok (if (l =? Z.of_N j)%Z then Float64.one else Float64.zero).
Proof.
  intros Hwf Hshape Hn Hpos.
  destruct labels as [shp ys]. unfold np.wf in Hwf. simpl in Hwf, Hshape, Hpos.
  subst shp. unfold np.size in Hwf. simpl fold_right in Hwf.
  assert (Hlen : N.of_nat (length ys) = n) by lia. clear Hwf.
  destruct (amax_spec ys) as (m & Em & Hin & Hmax).
  { intros ->. simpl in Hlen. lia. }
  assert (Hm : (0 <= m)%Z).
  { rewrite Forall_forall in Hpos. now apply Hpos. }
  set (k := (m + 1)%Z). set (K := Z.to_N k).
  assert (Hrange : Forall (fun y => 0 <= y < k)%Z ys).
  { rewrite Forall_forall in *. intros y Hy.
    specialize (Hpos y Hy). specialize (Hmax y Hy). unfold k. lia. }
  destruct (assign_ones_spec k ys ltac:(unfold k; lia) Hrange 0%N
              (repeat Float64.zero (N.to_nat (n * K))))
    as (buf & Ebuf & Hbuflen & Hbuf).
  { rewrite repeat_length. fold K. lia. }
  rewrite repeat_length in Hbuflen.
  exists m, (np.mk_ndarray [n; K] buf).
  split; [exact Em | ].
  assert (Ecat : keras.to_categorical (np.mk_ndarray [n] ys) None
                 = Ok (np.mk_ndarray [n; K] buf)).
  { unfold keras.to_categorical. cbn [np.shape np.data].
    rewrite Em. simpl bind. fold k.
    unfold keras.zeros.
    destruct (Z.ltb_spec k 0) as [Hneg | _]; [unfold k in Hneg; lia | ].
    simpl bind. rewrite Hlen. fold K. rewrite Ebuf. simpl bind.
    rewrite squeeze_last_1d. simpl app.
    now rewrite reshape_Ok. }
  split; [exact Ecat | ]. split; [reflexivity | ].
  split.
  { unfold np.wf, np.size. cbn [np.shape np.data fold_right]. lia. }
  intros i j Hi Hj.
  destruct (buffer_item ys i) as [l El]; [lia | ].
  exists l. unfold np.item. cbn [np.shape np.data].
  rewrite ravel2 by assumption.
  simpl np.ravel_multi_index.
  destruct (N.ltb_spec i n) as [_ | Hge]; [ | lia].
  simpl bind. rewrite El. split; [reflexivity | ].
  fold K in Hbuf. rewrite Hbuf by exact Hj.
  unfold keras.hit. rewrite N.sub_0_r, El.
  replace (0 <=? i)%N with true by (symmetry; apply N.leb_le; lia).
  simpl andb.
  destruct (Z.eqb_spec l (Z.of_N j)); [reflexivity | ].
  rewrite nth_error_repeat by nia. reflexivity.
Qed.

(** C2, as the code has it.  [to_categorical] is called without
    [num_classes], so the number of columns is the largest label plus
    one.  On a one-dimensional array of [n] labels from 0 to 9, [n] not
    0, the result has [n] rows and [m + 1] columns, [m] the largest
    label of the array, and row [i] is 1 at the index that is the label
    of [i] and 0 at the others.  When the label 9 occurs in the array, as
    it does in both label arrays of the dataset, the shape is
    [(n, 10)]. *)
Theorem to_categorical_one_hot (labels : np.ndarray Z) (n : N) :
  np.wf labels ->
  np.shape labels = [n] ->
  (0 < n)%N ->
  Forall (fun l => 0 <= l <= 9)%Z (np.data labels) ->
  exists m c,
    keras.amax (np.data labels) = Ok m
    /\ nb.encode_labels labels = Ok c
    /\ np.shape c = [n; Z.to_N (m + 1)]
    /\ np.wf c
    /\ (forall i, (i < n)%N ->
        exists l,
          np.item labels [i] = Ok l
          /\ forall j, (j < Z.to_N (m + 1))%N ->
               np.item c [i; j]
               = Ok (if (Z.of_N j =? l)%Z then Float64.one
                     else Float64.zero))
    /\ (In 9%Z (np.data labels) -> np.shape c = [n; 10]%N).
Proof.
  intros Hwf Hshape Hn Hrange.
  destruct (to_categorical_spec labels n Hwf Hshape Hn)
    as (m & c & Em & Ec & Hs & Hc & Hitems).
  { eapply Forall_impl; [ | exact Hrange]. simpl. intros; lia. }
  destruct (amax_spec (np.data labels)) as (m' & Em' & Hin & Hmax).
  { intros E. unfold np.wf in Hwf. rewrite Hshape, E in Hwf.
    unfold np.size in Hwf. simpl in Hwf. lia. }
  rewrite Em in Em'. injection Em' as <-.
  rewrite Forall_forall in Hrange, Hmax.
  pose proof (Hrange m Hin) as Hm.
  exists m, c. unfold nb.encode_labels.
  split; [exact Em | ]. split; [exact Ec | ]. split; [exact Hs | ].
  split; [exact Hc | ]. split.
  - intros i Hi.
    destruct (Hitems i 0%N Hi ltac:(lia)) as (l & El & _).
    exists l. split; [exact El | ]. intros j Hj.
    destruct (Hitems i j Hi Hj) as (l' & El' & Ej).
    rewrite El in El'. injection El' as <-.
    now rewrite Ej, Z.eqb_sym.
  - intros H9. specialize (Hmax 9%Z H9).
    replace m with 9%Z in Hs by lia. exact Hs.
Qed.

(** The theorem at the labels 5, 0, 4, 9. *)
Lemma to_categorical_one_hot_witness :
  let labels := np.mk_ndarray [4]%N [5; 0; 4; 9]%Z in
  exists m c,
    keras.amax (np.data labels) = Ok m
    /\ nb.encode_labels labels = Ok c
    /\ np.shape c = [4%N; Z.to_N (m + 1)]
    /\ np.wf c
    /\ (forall i, (i < 4)%N ->
        exists l,
          np.item labels [i] = Ok l
          /\ forall j, (j < Z.to_N (m + 1))%N ->
               np.item c [i; j]
               = Ok (if (Z.of_N j =? l)%Z then Float64.one
                     else Float64.zero))
    /\ (In 9%Z (np.data labels) -> np.shape c = [4; 10]%N).
Proof.
  intro labels.
  apply (to_categorical_one_hot labels 4%N).
  - reflexivity.
  - reflexivity.
  - reflexivity.
  - unfold labels. cbn [np.data]. repeat constructor; lia.
Defined.

(** C2 as stated fails on labels that stop short of 9: the array that
    holds the one label 3 is encoded in 4 columns, not 10. *)
Lemma to_categorical_label_3 :
  let labels := np.mk_ndarray [1]%N [3]%Z in
  np.wf labels
  /\ Forall (fun l => 0 <= l <= 9)%Z (np.data labels)
  /\ nb.encode_labels labels
     = Ok (np.mk_ndarray [1; 4]%N
             [Float64.zero; Float64.zero; Float64.zero; Float64.one])
  /\ ~ exists c, nb.encode_labels labels = Ok c /\ np.shape c = [1; 10]%N.
Proof.
  intro labels.
  assert (E : nb.encode_labels labels
              = Ok (np.mk_ndarray [1; 4]%N
                      [Float64.zero; Float64.zero; Float64.zero;
                       Float64.one])) by reflexivity.
  split; [reflexivity | ].
  split; [repeat constructor; lia | ].
  split; [exact E | ].
  intros (c & Hc & Hs). rewrite E in Hc. injection Hc as <-. discriminate.
Qed.

(** An array of no label is refused: [np.max] has nothing to return. *)
Example to_categorical_empty :
  nb.encode_labels (np.mk_ndarray [0]%N []) = Raise ValueError.
Proof. reflexivity. Qed.

(** ** Samples and targets (cells 24 and 26 together) *)

Lemma scale_images_paired (n : N) (images : np.ndarray Z)
      (x : np.ndarray Float32.float32) :
  np.wf images ->
  np.shape images = [n; 28; 28]%N ->
  nb.scale_images n images = Ok x ->
  np.len images = Ok n /\ np.len x = Ok n
  /\ forall i r c, (i < n)%N -> (r < 28)%N -> (c < 28)%N ->
       exists v, np.item images [i; r; c] = Ok v
                 /\ np.item x [i; 28 * r + c]%N = Ok (nb.scale_pixel v).
Proof.
  intros Hwf Hshape Hx.
  apply scale_images_data in Hx as (Hs & Hd & _).
  destruct images as [shp buf], x as [xs xbuf].
  unfold np.wf in Hwf. simpl in Hwf, Hshape, Hs, Hd. subst shp xs xbuf.
  assert (Hlen : N.of_nat (length buf) = (n * 784)%N).
  { rewrite Hwf. unfold np.size; simpl fold_right. lia. }
  split; [reflexivity | split; [reflexivity | ] ].
  intros i r c Hi Hr Hc.
  destruct (item_image buf n i r c Hlen Hi Hr Hc) as [v Hv].
  exists v. split; [exact Hv | ].
  change (28 * 28)%N with 784%N.
  apply item_of_map. now rewrite item_flatten.
Qed.

Lemma encode_labels_paired (n : N) (labels : np.ndarray Z) :
  np.wf labels ->
  np.shape labels = [n] ->
  (0 < n)%N ->
  np.is_uint8 labels ->
  exists y k,
    nb.encode_labels labels = Ok y
    /\ np.len labels = Ok n
    /\ np.shape y = [n; k]
    /\ forall i, (i < n)%N ->
         exists l,
           np.item labels [i] = Ok l
           /\ forall j, (j < k)%N ->
                np.item y [i; j]
                = Ok (if (Z.of_N j =? l)%Z then Float64.one
                      else Float64.zero).
Proof.
  intros Hwf Hshape Hn Hu8.
  destruct (to_categorical_spec labels n Hwf Hshape Hn)
    as (m & y & Em & Ey & Hs & _ & Hitems).
  { eapply Forall_impl; [ | exact Hu8]. simpl. intros; lia. }
  assert (H0 : (0 < Z.to_N (m + 1))%N).
  { destruct (amax_spec (np.data labels)) as (m' & Em' & Hin & _).
    - intros E. unfold np.wf in Hwf. rewrite Hshape, E in Hwf.
      unfold np.size in Hwf. simpl in Hwf. lia.
    - rewrite Em in Em'. injection Em' as <-.
      unfold np.is_uint8 in Hu8. rewrite Forall_forall in Hu8.
      specialize (Hu8 m Hin). lia. }
  exists y, (Z.to_N (m + 1)).
  split; [exact Ey | ].
  split; [unfold np.len; now rewrite Hshape | ].
  split; [exact Hs | ].
  intros i Hi.
  destruct (Hitems i 0%N Hi H0) as (l & El & _).
  exists l. split; [exact El | ]. intros j Hj.
  destruct (Hitems i j Hi Hj) as (l' & El' & Ej).
  rewrite El in El'. injection El' as <-.
  now rewrite Ej, Z.eqb_sym.
Qed.

Lemma paired_intro (n : N) (images labels : np.ndarray Z)
      (x : np.ndarray Float32.float32) :
  (0 < n)%N ->
  np.wf images -> np.shape images = [n; 28; 28]%N ->
  np.wf labels -> np.shape labels = [n] -> np.is_uint8 labels ->
  nb.scale_images n images = Ok x ->
  exists y, nb.encode_labels labels = Ok y /\ nb.paired n images labels x y.
Proof.
  intros Hn Hwi Hsi Hwl Hsl Hul Hx.
  destruct (scale_images_paired n images x Hwi Hsi Hx) as (Hli & Hlx & Hpix).
  destruct (encode_labels_paired n labels Hwl Hsl Hn Hul)
    as (y & k & Ey & Hll & Hsy & Hrows).
  exists y. split; [exact Ey | ].
  unfold nb.paired.
  split; [exact Hli | ]. split; [exact Hll | ]. split; [exact Hlx | ].
  split; [unfold np.len; now rewrite Hsy | ].
  exists k. split; [exact Hsy | ].
  intros i Hi. split; [intros r c Hr Hc; now apply Hpix | now apply Hrows].
Qed.

(** C10.  On arrays shaped as the dataset's, cells 24 and 26 succeed and
    keep the first axis of each array: 60000 for the training images and
    their labels, 10000 for the test images and theirs.  What [fit] gets
    is 60000 samples and 60000 targets, what [evaluate] gets 10000 and
    10000, and sample [i] and target [i] still come from image [i] and
    label [i]. *)
Theorem preprocess_keeps_pairing (d : nb.dataset) :
  nb.mnist_shaped d ->
  py.reads nb.fit_stmt = ["network"; "train_images"; "train_labels"]%string
  /\ py.reads nb.evaluate_stmt
     = ["network"; "test_images"; "test_labels"]%string
  /\ exists p,
       nb.preprocess d = Ok p
       /\ nb.paired 60000 (nb.train_images d) (nb.train_labels d)
                    (nb.x_train p) (nb.y_train p)
       /\ nb.paired 10000 (nb.test_images d) (nb.test_labels d)
                    (nb.x_test p) (nb.y_test p).
Proof.
  intros [Htis Htiw _ Htls Htlw Htlu Hxis Hxiw _ Hxls Hxlw Hxlu].
  split; [reflexivity | split; [reflexivity | ] ].
  destruct (scale_images_Ok 60000 _ Htis) as [xtr Extr].
  destruct (scale_images_Ok 10000 _ Hxis) as [xte Exte].
  destruct (paired_intro 60000 _ _ xtr eq_refl Htiw Htis Htlw Htls Htlu Extr)
    as (ytr & Eytr & Ptr).
  destruct (paired_intro 10000 _ _ xte eq_refl Hxiw Hxis Hxlw Hxls Hxlu Exte)
    as (yte & Eyte & Pte).
  exists (nb.mk_prepared xtr ytr xte yte).
  unfold nb.preprocess. rewrite Extr, Exte, Eytr, Eyte. simpl.
  auto.
Qed.

Lemma blank_wf (shp : list N) (m : N) :
  np.size shp = m -> np.wf (np.mk_ndarray shp (repeat 0%Z (N.to_nat m))).
Proof.
  intros H. unfold np.wf. cbn [np.shape np.data].
  now rewrite repeat_length, N2Nat.id.
Qed.

Lemma blank_uint8 (shp : list N) (m : nat) :
  np.is_uint8 (np.mk_ndarray shp (repeat 0%Z m)).
Proof.
  unfold np.is_uint8. cbn [np.data]. apply Forall_forall.
  intros v Hv. apply repeat_spec in Hv. lia.
Qed.

Lemma blank_dataset_shaped : nb.mnist_shaped blank_dataset.
Proof.
  constructor; cbn [blank_dataset nb.train_images nb.train_labels
                    nb.test_images nb.test_labels];
    first [ apply blank_uint8 | apply blank_wf; reflexivity | reflexivity ].
Qed.

(** The theorem at [blank_dataset]. *)
Lemma preprocess_keeps_pairing_witness :
  exists p,
    nb.preprocess blank_dataset = Ok p
    /\ nb.paired 60000 (nb.train_images blank_dataset)
                 (nb.train_labels blank_dataset)
                 (nb.x_train p) (nb.y_train p)
    /\ nb.paired 10000 (nb.test_images blank_dataset)
                 (nb.test_labels blank_dataset)
                 (nb.x_test p) (nb.y_test p).
Proof.
  exact (proj2 (proj2 (preprocess_keeps_pairing blank_dataset
                                                blank_dataset_shaped))).
Defined.

(** ** The network (cells 20 and 22) *)

Section Layers.

Import keras.
Local Open Scope R_scope.








End Layers.

Lemma bind_Ok_r (A : Type) (m : result A) : bind m (fun a => Ok a) = m.
Proof. now destruct m. Qed.

(** C3.  The network of cell 20 is two dense layers and no more: 512
    units with ReLU on an input of 28 * 28 = 784 values, then 10 units
    with softmax.  The notebook calls [network.add] twice, compiling adds
    no layer, and the second layer is applied to the output of the
    first. *)
Theorem network_two_dense_layers :
  keras.layers nb.network
  = [ keras.Dense 512 keras.relu (Some [784%N]);
      keras.Dense 10 keras.softmax None ]
  /\ keras.layers nb.compiled_network = keras.layers nb.network
  /\ count_occ string_dec (nb.calls_of nb.program) "network.add"%string
     = 2%nat
  /\ count_occ string_dec (nb.calls_of nb.program) "layers.Dense"%string
     = 2%nat
  /\ forall (w1 w2 : keras.dense_weights) (x : list R),
       keras.predict nb.network [w1; w2] x
       = (h <- keras.call_layer
                 (keras.Dense 512 keras.relu (Some [784%N])) w1 x ;;
          keras.call_layer (keras.Dense 10 keras.softmax None) w2 h).
Proof.
  split; [reflexivity | ].
  split; [reflexivity | ].
  split; [vm_compute; reflexivity | ].
  split; [vm_compute; reflexivity | ].
  intros w1 w2 x. unfold keras.predict.
  change (keras.layers nb.network)
    with [ keras.Dense 512 keras.relu (Some [784%N]);
           keras.Dense 10 keras.softmax None ].
  cbn [keras.call_layers].
  destruct (keras.call_layer _ w1 x) as [h | e]; [ | reflexivity].
  cbn [bind]. apply bind_Ok_r.
Qed.




(** ** Running the cells *)

Section Runs.

Import py.

Context {state : Type}.
Variable simple : stmt -> state -> state * option exn.

Lemma exec_handler_free (s : stmt) (st : state) :
  handler_free s = true ->
  exec simple s st
  = (fst (simple s st), snd (simple s st), [(s, snd (simple s st))]).
Proof.
  destruct s; simpl; intros H; try discriminate;
    now destruct (simple _ st).
Qed.

(** A block without handlers runs its statements in order and stops at
    the first that raises: either nothing was raised and every statement
    ran, or the run ends at the statement that raised, with its
    exception, the statements before it having run quietly and those
    after it not at all. *)
Lemma exec_block_shape (ss : list stmt) :
  forallb handler_free ss = true ->
  forall st st' r tr,
    exec_block simple ss st = (st', r, tr) ->
    match r with
    | None => tr = map quiet ss
    | Some e =>
        exists pre s post,
          ss = pre ++ s :: post /\ tr = map quiet pre ++ [(s, Some e)]
    end.
Proof.
  induction ss as [ | s ss IH]; intros Hfree st st' r tr Hrun.
  - simpl in Hrun. injection Hrun as <- <- <-. reflexivity.
  - simpl in Hfree. apply andb_true_iff in Hfree as [Hs Hss].
    simpl in Hrun. rewrite (exec_handler_free s st Hs) in Hrun.
    destruct (simple s st) as [st1 [e | ] ]; simpl in Hrun.
    + injection Hrun as <- <- <-.
      exists [], s, ss. split; reflexivity.
    + destruct (exec_block simple ss st1) as [[st2 r2] tr2] eqn:E.
      injection Hrun as <- <- <-.
      specialize (IH Hss st1 st2 r2 tr2 E).
      destruct r2 as [e | ].
      * destruct IH as (pre & s' & post & -> & ->).
        exists (s :: pre), s', post. split; reflexivity.
      * now rewrite IH.
Qed.

Lemma ran_quiet (ss : list stmt) : ran (map quiet ss) = ss.
Proof. unfold ran. rewrite map_map. simpl. apply map_id. Qed.

Lemma in_quiet (ss : list stmt) (s : stmt) (e : exn) :
  ~ In (s, Some e) (map quiet ss).
Proof.
  intros H. apply in_map_iff in H as (s' & E & _). discriminate.
Qed.

End Runs.

Lemma mentions_In (v : string) (l : list string) :
  nb.mentions v l = true <-> In v l.
Proof.
  unfold nb.mentions. rewrite existsb_exists. split.
  - intros (x & Hx & E). apply String.eqb_eq in E. now subst.
  - intros H. exists v. split; [exact H | apply String.eqb_refl].
Qed.

(** An item found before the first [b] comes before [b]. *)
Lemma before_precedes (a b : string) (l : list string) :
  In b l -> In a (nb.before b l) -> nb.precedes a b l.
Proof.
  induction l as [ | x l IH]; intros Hb Ha; [destruct Hb | ].
  simpl in Ha. destruct (String.eqb_spec x b) as [-> | Hxb]; [destruct Ha | ].
  destruct Hb as [Hb | Hb]; [congruence | ].
  destruct Ha as [-> | Ha].
  - apply in_split in Hb as (l2 & l3 & ->). now exists [], l2, l3.
  - destruct (IH Hb Ha) as (l1 & l2 & l3 & ->). now exists (x :: l1), l2, l3.
Qed.

Lemma calls_in_order_precedes (a b : string) (ss : list py.stmt) :
  nb.calls_in_order a b ss = true ->
  In b (nb.calls_of ss) -> nb.precedes a b (nb.calls_of ss).
Proof.
  unfold nb.calls_in_order. intros H Hb.
  apply orb_true_iff in H as [H | H].
  - apply negb_true_iff in H. apply mentions_In in Hb. congruence.
  - apply before_precedes; [exact Hb | now apply mentions_In].
Qed.

Lemma prefix_firstn {A : Type} (pre rest : list A) :
  firstn (length pre) (pre ++ rest) = pre.
Proof.
  induction pre as [ | x pre IH]; simpl; [reflexivity | now rewrite IH].
Qed.

(** However far a run of the notebook gets, [compile] is called before
    [fit] and [fit] before [evaluate]. *)
Lemma prefix_table :
  forallb (fun k =>
             nb.calls_in_order "network.compile" "network.fit"
                               (firstn k nb.program)
             && nb.calls_in_order "network.fit" "network.evaluate"
                                  (firstn k nb.program))
          (seq 0 (S (length nb.program))) = true.
Proof. vm_compute. reflexivity. Qed.

Lemma prefix_in_order (done rest : list py.stmt) :
  nb.program = done ++ rest ->
  nb.calls_in_order "network.compile" "network.fit" done = true
  /\ nb.calls_in_order "network.fit" "network.evaluate" done = true.
Proof.
  intros H. pose proof prefix_table as T. rewrite forallb_forall in T.
  specialize (T (length done)).
  rewrite H, prefix_firstn in T. apply andb_true_iff, T, in_seq.
  rewrite length_app. lia.
Qed.

Lemma program_handler_free : forallb py.handler_free nb.program = true.
Proof. reflexivity. Qed.

(** What a run of the notebook looks like, whatever the library calls
    do. *)
Lemma run_shape {state : Type}
      (simple : py.stmt -> state -> state * option exn) (st : state) :
  match snd (fst (nb.run simple st)) with
  | None => snd (nb.run simple st) = map py.quiet nb.program
  | Some e =>
      exists pre s post,
        nb.program = pre ++ s :: post
        /\ snd (nb.run simple st) = map py.quiet pre ++ [(s, Some e)]
  end.
Proof.
  unfold nb.run.
  destruct (py.exec_block simple nb.program st) as [[st' r] tr] eqn:E.
  exact (exec_block_shape simple nb.program program_handler_free _ _ _ _ E).
Qed.

(** C5.  The saved session ran its cells top to bottom, numbered 2 to 15
    without a gap.  Read in that order the notebook calls: the dataset
    loader; the model constructor, the two layers and [add] twice;
    [compile]; [reshape] and [astype] on each array of images;
    [to_categorical] on each array of labels; [fit]; [evaluate];
    [print].  A run executes the statements in that order, with no
    reordering: what has run at any point is an initial part of the
    notebook, all of it when nothing was raised; so [compile] comes
    before [fit] and [fit] before [evaluate] in every run that reaches
    them. *)
Theorem notebook_runs_in_order :
  nb.execution_counts = seq 2 14
  /\ nb.calls_of nb.program
     = [ "mnist.load_data"; "len"; "len";
         "models.Sequential"; "layers.Dense"; "network.add";
         "layers.Dense"; "network.add";
         "network.compile";
         "train_images.reshape"; "train_images.astype";
         "test_images.reshape"; "test_images.astype";
         "to_categorical"; "to_categorical";
         "network.fit"; "network.evaluate"; "print" ]%string
  /\ forall (state : Type)
            (simple : py.stmt -> state -> state * option exn) (st : state),
       let done := py.ran (snd (nb.run simple st)) in
       (exists rest, nb.program = done ++ rest)
       /\ (snd (fst (nb.run simple st)) = None -> done = nb.program)
       /\ (In "network.fit"%string (nb.calls_of done) ->
           nb.precedes "network.compile"%string "network.fit"%string
                       (nb.calls_of done))
       /\ (In "network.evaluate"%string (nb.calls_of done) ->
           nb.precedes "network.fit"%string "network.evaluate"%string
                       (nb.calls_of done)).
Proof.
  split; [reflexivity | ]. split; [reflexivity | ].
  intros state simple st done.
  assert (Hprefix : exists rest, nb.program = done ++ rest).
  { unfold done. pose proof (run_shape simple st) as H.
    destruct (snd (fst (nb.run simple st))) as [e | ].
    - destruct H as (pre & s & post & Hprog & ->).
      exists post. unfold py.ran. rewrite map_app.
      change (map fst (map py.quiet pre)) with (py.ran (map py.quiet pre)).
      rewrite ran_quiet. simpl. now rewrite <- app_assoc.
    - exists []. rewrite H, ran_quiet. now rewrite app_nil_r. }
  split; [exact Hprefix | ]. split.
  - intros Hnone. unfold done. pose proof (run_shape simple st) as H.
    rewrite Hnone in H. rewrite H. apply ran_quiet.
  - destruct Hprefix as [rest Hrest].
    destruct (prefix_in_order done rest Hrest) as [H1 H2].
    split; now apply calls_in_order_precedes.
Qed.

(** The theorem at a library in which every call succeeds. *)
Lemma notebook_runs_in_order_witness :
  let simple := fun (_ : py.stmt) (n : nat) => (S n, @None exn) in
  nb.precedes "network.compile"%string "network.fit"%string
              (nb.calls_of (py.ran (snd (nb.run simple 0%nat))))
  /\ nb.precedes "network.fit"%string "network.evaluate"%string
                 (nb.calls_of (py.ran (snd (nb.run simple 0%nat)))).
Proof.
  intro simple.
  destruct (proj2 (proj2 notebook_runs_in_order) nat simple 0%nat)
    as (_ & _ & Hfit & Heval).
  split; [apply Hfit | apply Heval]; apply mentions_In; reflexivity.
Defined.

(** ** Errors *)

Section Propagation.

Import py.

Context {state : Type}.
Variable simple : stmt -> state -> state * option exn.

Lemma exec_block_app (ss1 ss2 : list stmt) (st : state) :
  exec_block simple (ss1 ++ ss2) st
  = seq_outcome (exec_block simple ss1 st) (exec_block simple ss2).
Proof.
  revert st. induction ss1 as [ | s ss1 IH]; intros st; simpl.
  - destruct (exec_block simple ss2 st) as [[st' r] tr]. reflexivity.
  - destruct (exec simple s st) as [[st1 [e | ] ] tr1]; simpl;
      [reflexivity | ].
    rewrite IH.
    destruct (exec_block simple ss1 st1) as [[st2 [e | ] ] tr2]; simpl;
      [reflexivity | ].
    destruct (exec_block simple ss2 st2) as [[st3 r3] tr3].
    now rewrite app_assoc.
Qed.

(** In a block without handlers, the exception a statement raises is
    the outcome of the block: nothing after the statement runs. *)
Lemma raise_ends_block (pre post : list stmt) (s : stmt)
      (st st1 : state) (tr1 : list event) (e : exn) :
  handler_free s = true ->
  exec_block simple pre st = (st1, None, tr1) ->
  snd (simple s st1) = Some e ->
  exec_block simple (pre ++ s :: post) st
  = (fst (simple s st1), Some e, tr1 ++ [(s, Some e)]).
Proof.
  intros Hs Hpre He.
  rewrite exec_block_app, Hpre. simpl.
  rewrite (exec_handler_free simple s st1 Hs), He. reflexivity.
Qed.

End Propagation.

(** C6.  No statement of the notebook handles errors.  So in a run,
    whatever the library calls do: when a statement that is reached
    raises, its exception is the outcome of the run; and an exception
    raised anywhere in a run was raised by the last statement that ran,
    every statement before it having raised nothing, and is the outcome
    of the run. *)
Theorem notebook_errors_unhandled :
  forallb py.handler_free nb.program = true
  /\ forall (state : Type)
            (simple : py.stmt -> state -> state * option exn) (st : state),
       (forall pre s post st1 tr1 e,
           nb.program = pre ++ s :: post ->
           py.exec_block simple pre st = (st1, None, tr1) ->
           snd (simple s st1) = Some e ->
           nb.run simple st
           = (fst (simple s st1), Some e, tr1 ++ [(s, Some e)]))
       /\ (forall s e,
              In (s, Some e) (snd (nb.run simple st)) ->
              snd (fst (nb.run simple st)) = Some e
              /\ exists pre post,
                   nb.program = pre ++ s :: post
                   /\ snd (nb.run simple st)
                      = map py.quiet pre ++ [(s, Some e)]).
Proof.
  split; [reflexivity | ].
  intros state simple st. split.
  - intros pre s post st1 tr1 e Hprog Hpre He.
    unfold nb.run. rewrite Hprog.
    apply raise_ends_block; [ | exact Hpre | exact He].
    pose proof program_handler_free as Hfree.
    rewrite Hprog, forallb_app in Hfree.
    apply andb_true_iff in Hfree as [_ Hfree]. simpl in Hfree.
    now apply andb_true_iff in Hfree as [Hs _].
  - intros s e Hin. pose proof (run_shape simple st) as H.
    destruct (snd (fst (nb.run simple st))) as [e' | ].
    + destruct H as (pre & s' & post & Hprog & Htr).
      rewrite Htr in Hin. apply in_app_or in Hin as [Hin | Hin].
      * now apply in_quiet in Hin.
      * destruct Hin as [Hin | [] ]. injection Hin as -> ->.
        split; [reflexivity | ]. now exists pre, post.
    + rewrite H in Hin. now apply in_quiet in Hin.
Qed.

(** The theorem at [failing_reshape]: the [ValueError] of the reshape is
    the outcome of the run, after 16 statements. *)
Lemma notebook_errors_unhandled_witness :
  nb.run failing_reshape 0%nat
  = (16%nat, Some ValueError,
     map py.quiet (firstn 16 nb.program)
     ++ [(nth 16 nb.program (py.Import EmptyString), Some ValueError)]).
Proof.
  apply (proj1 (proj2 notebook_errors_unhandled nat failing_reshape 0%nat)
               (firstn 16 nb.program) (nth 16 nb.program (py.Import EmptyString))
               (skipn 17 nb.program) 16%nat
               (map py.quiet (firstn 16 nb.program)) ValueError);
    reflexivity.
Defined.

(** ** The life of the four arrays *)

(** C8, as the code has it.  Each of the four arrays is bound once to
    what the loader returns.  The arrays of images are then rebound
    twice to a value computed from themselves (the reshape, then the
    conversion and division), the arrays of labels once (the one-hot
    encoding).  With its last value each array is read by one statement
    only, the call of [fit] for the training arrays and of [evaluate]
    for the test arrays, and no statement binds it again.  Counting the
    cells that display it as loaded (one for an array of images, two for
    an array of labels), four statements read each array. *)
Theorem array_lifecycle :
  Forall (fun v => nb.loads v nb.program = 1%nat) nb.arrays
  /\ nb.transforms "train_images" nb.program = 2%nat
  /\ nb.transforms "test_images" nb.program = 2%nat
  /\ nb.transforms "train_labels" nb.program = 1%nat
  /\ nb.transforms "test_labels" nb.program = 1%nat
  /\ nb.uses_of_final "train_images" nb.program = [nb.fit_stmt]
  /\ nb.uses_of_final "train_labels" nb.program = [nb.fit_stmt]
  /\ nb.uses_of_final "test_images" nb.program = [nb.evaluate_stmt]
  /\ nb.uses_of_final "test_labels" nb.program = [nb.evaluate_stmt]
  /\ List.length (nb.readers "train_images" nb.program) = 4%nat
  /\ List.length (nb.readers "train_labels" nb.program) = 4%nat
  /\ List.length (nb.readers "test_images" nb.program) = 4%nat
  /\ List.length (nb.readers "test_labels" nb.program) = 4%nat
  /\ py.stmt_calls nb.fit_stmt = ["network.fit"%string]
  /\ py.stmt_calls nb.evaluate_stmt = ["network.evaluate"%string]
  /\ Forall (fun v =>
               forallb (fun s => negb (nb.mentions v (py.assigned s)))
                       (nb.after_last_binding v nb.program) = true)
            nb.arrays.
Proof.
  repeat split; try reflexivity;
    repeat (constructor; try reflexivity).
Qed.

(** C8 as stated fails on the labels: they are transformed once, not
    twice. *)
Lemma labels_transformed_once :
  nb.transforms "train_labels" nb.program = 1%nat
  /\ nb.transforms "test_labels" nb.program = 1%nat
  /\ ~ Forall (fun v => nb.transforms v nb.program = 2%nat) nb.arrays.
Proof.
  split; [reflexivity | split; [reflexivity | ] ].
  intros H. inversion H as [ | v l _ H1]; subst.
  inversion H1 as [ | v l Hlabels _]; subst.
  discriminate Hlabels.
Qed.

(** * Further properties *)

(** ** Reshaping in general *)

(** X1.  [reshape] never touches the buffer.  When it succeeds, the
    result is as well formed as the array, reshaping the result again is
    reshaping the array itself to the last shape, and reshaping the
    result to the shape of the array gives the array back. *)
Theorem reshape_compose (A : Type) (a b : np.ndarray A) (s1 s2 : list N) :
  np.reshape a s1 = Ok b ->
  np.data b = np.data a
  /\ (np.wf a -> np.wf b)
  /\ np.reshape b s2 = np.reshape a s2
  /\ np.reshape b (np.shape a) = Ok a.
Proof.
  intros H. pose proof (reshape_inv a s1 b H) as (Hs & Hd & Hsz).
  split; [exact Hd | ]. split; [intros Hwf; exact (reshape_wf a s1 b Hwf H) | ].
  split.
  - unfold np.reshape. now rewrite Hs, Hd, Hsz.
  - unfold np.reshape. rewrite Hs, Hd, Hsz, N.eqb_refl. now destruct a.
Qed.

(** The theorem at an array of 2 by 3 by 4 items, reshaped to 6 by 4 and
    then to 24. *)
Lemma reshape_compose_witness :
  let a := np.mk_ndarray [2; 3; 4]%N (map Z.of_nat (seq 0 24)) in
  let b := np.mk_ndarray [6; 4]%N (map Z.of_nat (seq 0 24)) in
  np.data b = np.data a
  /\ (np.wf a -> np.wf b)
  /\ np.reshape b [24]%N = np.reshape a [24]%N
  /\ np.reshape b (np.shape a) = Ok a.
Proof.
  intros a b. apply (reshape_compose Z a b [6; 4]%N [24]%N). reflexivity.
Defined.

(** ** Cell 24 beyond arrays of images *)

(** X2.  Cell 24 checks the number of items of the array and nothing
    else.  An array of [count * 784] items, whatever its shape, is
    accepted and comes out with the shape [(count, 784)], its buffer
    scaled item by item; any other array is refused with a
    [ValueError]. *)
Theorem scale_images_checks_size_only (count : N) (images : np.ndarray Z) :
  (np.size (np.shape images) = (count * 784)%N ->
   nb.scale_images count images
   = Ok (np.mk_ndarray [count; 784]%N
                       (map nb.scale_pixel (np.data images))))
  /\ (np.size (np.shape images) <> (count * 784)%N ->
      nb.scale_images count images = Raise ValueError).
Proof.
  assert (Hsz : np.size [count; 28 * 28]%N = (count * 784)%N)
    by (unfold np.size; simpl fold_right; lia).
  unfold nb.scale_images, np.reshape. rewrite Hsz. split; intros H.
  - rewrite H, N.eqb_refl. simpl bind.
    unfold np.true_divide, np.astype_float32. cbn [np.shape np.data].
    now rewrite map_map.
  - destruct (N.eqb_spec (count * 784)%N (np.size (np.shape images)));
      [congruence | reflexivity].
Qed.

(** The theorem at an array of shape [(1, 56, 14)], which holds 784 items
    and is taken for one image, and at two images where three are
    announced. *)
Lemma scale_images_checks_size_only_witness :
  nb.scale_images 1 (np.mk_ndarray [1; 56; 14]%N (repeat 255%Z 784))
  = Ok (np.mk_ndarray [1; 784]%N
                      (map nb.scale_pixel (repeat 255%Z 784)))
  /\ nb.scale_images 3 (np.mk_ndarray [2; 28; 28]%N (repeat 0%Z 1568))
     = Raise ValueError.
Proof.
  split.
  - apply (proj1 (scale_images_checks_size_only 1
                    (np.mk_ndarray [1; 56; 14]%N (repeat 255%Z 784)))).
    reflexivity.
  - apply (proj2 (scale_images_checks_size_only 3
                    (np.mk_ndarray [2; 28; 28]%N (repeat 0%Z 1568)))).
    discriminate.
Defined.

(** ** What scaling does to the pixels *)

Lemma strongly_increasing_nth (l : list Float32.float32)
      (d : Float32.float32) :
  strongly_increasing l = true ->
  forall i j, (i < j < length l)%nat ->
              SFltb (nth i l d) (nth j l d) = true.
Proof.
  induction l as [ | a l IH]; intros H i j Hij; simpl in Hij; [lia | ].
  simpl in H. apply andb_true_iff in H as [Ha Hl].
  destruct j as [ | j]; [lia | ]. destruct i as [ | i]; simpl.
  - rewrite forallb_forall in Ha. apply Ha, nth_In. lia.
  - apply IH; [exact Hl | lia].
Qed.

Lemma scaled_pixels_nth (k : Z) :
  (0 <= k <= 255)%Z ->
  nth (Z.to_nat k) scaled_pixels (nb.scale_pixel 0) = nb.scale_pixel k.
Proof.
  intros Hk. unfold scaled_pixels.
  change (nb.scale_pixel 0)
    with ((fun n => nb.scale_pixel (Z.of_nat n)) 0%nat).
  rewrite map_nth, seq_nth by lia. simpl Nat.add. now rewrite Z2Nat.id by lia.
Qed.

Lemma scaled_pixels_increasing : strongly_increasing scaled_pixels = true.
Proof. vm_compute. reflexivity. Qed.

Lemma scale_pixel_lt (a b : Z) :
  (0 <= a)%Z -> (a < b)%Z -> (b <= 255)%Z ->
  SFltb (nb.scale_pixel a) (nb.scale_pixel b) = true.
Proof.
  intros Ha Hab Hb.
  rewrite <- (scaled_pixels_nth a), <- (scaled_pixels_nth b) by lia.
  apply strongly_increasing_nth; [exact scaled_pixels_increasing | ].
  change (length scaled_pixels) with 256%nat. lia.
Qed.

Lemma SFltb_irrefl (x : spec_float) : SFltb x x = false.
Proof.
  destruct x as [ | [ | ] | | [ | ] m e]; try reflexivity;
    unfold SFltb, SFcompare;
    rewrite Z.compare_refl, Pos.compare_cont_refl; reflexivity.
Qed.

(** Two [uint8] values scaled to the same number are the same value. *)
Lemma scale_pixel_inj (a b : Z) :
  (0 <= a <= 255)%Z -> (0 <= b <= 255)%Z ->
  nb.scale_pixel a = nb.scale_pixel b -> a = b.
Proof.
  intros Ha Hb E.
  destruct (Z.lt_total a b) as [Hlt | [Heq | Hgt] ]; [ | exact Heq | ].
  - pose proof (scale_pixel_lt a b ltac:(lia) Hlt ltac:(lia)) as H.
    rewrite E, SFltb_irrefl in H. discriminate.
  - pose proof (scale_pixel_lt b a ltac:(lia) Hgt ltac:(lia)) as H.
    rewrite E, SFltb_irrefl in H. discriminate.
Qed.

(** X3.  Scaling keeps the order of the intensities: a brighter [uint8]
    pixel is scaled to a strictly larger binary32 number. *)
Theorem scale_pixel_increasing (a b : Z) :
  (0 <= a)%Z -> (a < b)%Z -> (b <= 255)%Z ->
  SFltb (nb.scale_pixel a) (nb.scale_pixel b) = true
  /\ nb.scale_pixel a <> nb.scale_pixel b.
Proof.
  intros Ha Hab Hb. split; [now apply scale_pixel_lt | ].
  intros E. apply scale_pixel_inj in E; lia.
Qed.

(** The theorem at the intensities 254 and 255. *)
Lemma scale_pixel_increasing_witness :
  SFltb (nb.scale_pixel 254) (nb.scale_pixel 255) = true
  /\ nb.scale_pixel 254 <> nb.scale_pixel 255.
Proof. apply (scale_pixel_increasing 254 255); lia. Defined.

Lemma scale_pixel_error_table :
  forallb (fun n =>
             Qle_bool
               (Qabs (float32_to_Q (nb.scale_pixel (Z.of_nat n))
                      - inject_Z (Z.of_nat n) / inject_Z 255)%Q)
               (1 # 33554432)%Q)
          (seq 0 256) = true.
Proof. vm_compute. reflexivity. Qed.

(** X4.  The binary32 number a [uint8] pixel [k] is scaled to is the
    quotient [k / 255] up to rounding: it differs from it by 2^-25 at
    most. *)
Theorem scale_pixel_accuracy (k : Z) :
  (0 <= k <= 255)%Z ->
  (Qabs (float32_to_Q (nb.scale_pixel k) - inject_Z k / inject_Z 255)
   <= 1 # 33554432)%Q.
Proof.
  intros Hk. pose proof scale_pixel_error_table as T.
  rewrite forallb_forall in T.
  specialize (T (Z.to_nat k) ltac:(apply in_seq; lia)).
  rewrite Z2Nat.id in T by lia. now apply Qle_bool_iff.
Qed.

(** The theorem at the intensity 128. *)
Lemma scale_pixel_accuracy_witness :
  (Qabs (float32_to_Q (nb.scale_pixel 128) - inject_Z 128 / inject_Z 255)
   <= 1 # 33554432)%Q.
Proof. apply (scale_pixel_accuracy 128). lia. Defined.

Lemma map_scale_pixel_inj (l1 l2 : list Z) :
  Forall (fun v => 0 <= v <= 255)%Z l1 ->
  Forall (fun v => 0 <= v <= 255)%Z l2 ->
  map nb.scale_pixel l1 = map nb.scale_pixel l2 -> l1 = l2.
Proof.
  intros H1. revert l2.
  induction H1 as [ | a l1 Ha H1 IH]; intros l2 H2 E;
    destruct H2 as [ | b l2 Hb H2]; simpl in E; try discriminate;
    [reflexivity | ].
  injection E as Eab E.
  f_equal; [now apply scale_pixel_inj | now apply IH].
Qed.

(** X5.  Cell 24 loses nothing: two [uint8] arrays of the same shape that
    it takes to the same array are the same array. *)
Theorem scale_images_injective (count : N) (a1 a2 : np.ndarray Z)
        (x : np.ndarray Float32.float32) :
  np.is_uint8 a1 -> np.is_uint8 a2 ->
  np.shape a1 = np.shape a2 ->
  nb.scale_images count a1 = Ok x ->
  nb.scale_images count a2 = Ok x ->
  a1 = a2.
Proof.
  intros H1 H2 Hs E1 E2.
  apply scale_images_data in E1 as (_ & D1 & _).
  apply scale_images_data in E2 as (_ & D2 & _).
  rewrite D1 in D2. apply map_scale_pixel_inj in D2; [ | assumption ..].
  destruct a1, a2. simpl in *. congruence.
Qed.

(** The theorem at an image that holds every [uint8] value, written in
    two ways. *)
Lemma scale_images_injective_witness :
  let a1 :=
    np.mk_ndarray [1; 28; 28]%N
                  (map (fun n => Z.of_nat n mod 256)%Z (seq 0 784)) in
  let a2 :=
    np.mk_ndarray [1; 28; 28]%N
                  (map (fun n => Z.of_nat (n mod 256))%Z (seq 0 784)) in
  np.is_uint8 a1 /\ np.is_uint8 a2 /\ a1 = a2.
Proof.
  intros a1 a2.
  assert (H1 : np.is_uint8 a1).
  { unfold np.is_uint8, a1. cbn [np.data].
    apply Forall_map, Forall_forall. intros n _.
    pose proof (Z.mod_pos_bound (Z.of_nat n) 256 eq_refl). lia. }
  assert (H2 : np.is_uint8 a2).
  { unfold np.is_uint8, a2. cbn [np.data].
    apply Forall_map, Forall_forall. intros n _.
    pose proof (Nat.mod_upper_bound n 256 ltac:(discriminate)). lia. }
  split; [exact H1 | split; [exact H2 | ] ].
  apply (scale_images_injective 1 a1 a2
           (np.mk_ndarray [1; 784]%N (map nb.scale_pixel (np.data a1)))
           H1 H2 eq_refl);
    vm_compute; reflexivity.
Defined.

(** ** What the encoding does to the labels *)

Lemma item_1d {A : Type} (a : np.ndarray A) (n i : N) (v : A) :
  np.shape a = [n] ->
  np.item a [i] = Ok v
  <-> (i < n)%N /\ nth_error (np.data a) (N.to_nat i) = Some v.
Proof.
  intros Hs. unfold np.item. rewrite Hs. simpl np.ravel_multi_index.
  destruct (N.ltb_spec i n) as [Hi | Hi]; simpl bind.
  - destruct (nth_error (np.data a) (N.to_nat i)) as [x | ]; split.
    + intros E. injection E as <-. auto.
    + intros [_ E]. congruence.
    + discriminate.
    + intros [_ E]. discriminate.
  - split; [discriminate | intros [H _]; lia].
Qed.

Lemma labels_length (labels : np.ndarray Z) (n : N) :
  np.wf labels -> np.shape labels = [n] ->
  N.of_nat (length (np.data labels)) = n.
Proof.
  unfold np.wf. intros Hwf Hs. rewrite Hs in Hwf.
  unfold np.size in Hwf. simpl fold_right in Hwf. lia.
Qed.

Lemma encode_labels_empty (labels : np.ndarray Z) :
  np.data labels = [] -> nb.encode_labels labels = Raise ValueError.
Proof.
  intros E. unfold nb.encode_labels, keras.to_categorical. now rewrite E.
Qed.

(** X6.  Cell 26 needs one label at least: on a one-dimensional [uint8]
    array it fails, with a [ValueError], exactly when the array is
    empty, and otherwise returns an array with one row per label. *)
Theorem encode_labels_fails_iff_empty (labels : np.ndarray Z) (n : N) :
  np.wf labels ->
  np.shape labels = [n] ->
  np.is_uint8 labels ->
  (nb.encode_labels labels = Raise ValueError <-> n = 0%N)
  /\ (n <> 0%N ->
      exists c, nb.encode_labels labels = Ok c /\ np.len c = Ok n).
Proof.
  intros Hwf Hs Hu8. pose proof (labels_length labels n Hwf Hs) as Hlen.
  assert (Hok : n <> 0%N ->
                exists c, nb.encode_labels labels = Ok c /\ np.len c = Ok n).
  { intros Hn.
    destruct (to_categorical_spec labels n Hwf Hs ltac:(lia))
      as (m & c & _ & Ec & Hsc & _).
    { eapply Forall_impl; [ | exact Hu8]. simpl. intros; lia. }
    exists c. split; [exact Ec | unfold np.len; now rewrite Hsc]. }
  split; [ | exact Hok]. split.
  - intros E. destruct (N.eq_dec n 0) as [Hn | Hn]; [exact Hn | ].
    destruct (Hok Hn) as (c & Ec & _). congruence.
  - intros ->. apply encode_labels_empty.
    destruct (np.data labels); [reflexivity | simpl in Hlen; lia].
Qed.

(** The theorem at an array of no label. *)
Lemma encode_labels_fails_iff_empty_witness :
  nb.encode_labels (np.mk_ndarray [0]%N []) = Raise ValueError.
Proof.
  apply (proj1 (encode_labels_fails_iff_empty
                  (np.mk_ndarray [0]%N []) 0%N eq_refl eq_refl
                  (Forall_nil _))).
  reflexivity.
Defined.

(** X7.  Cell 26 loses nothing: two one-dimensional [uint8] arrays of
    labels with the same encoding are the same array. *)
Theorem encode_labels_injective (l1 l2 : np.ndarray Z) (n : N)
        (c : np.ndarray Float64.float64) :
  np.wf l1 -> np.wf l2 ->
  np.shape l1 = [n] -> np.shape l2 = [n] ->
  np.is_uint8 l1 -> np.is_uint8 l2 ->
  nb.encode_labels l1 = Ok c ->
  nb.encode_labels l2 = Ok c ->
  l1 = l2.
Proof.
  intros Hw1 Hw2 Hs1 Hs2 Hu1 Hu2 E1 E2.
  pose proof (labels_length l1 n Hw1 Hs1) as Hlen1.
  pose proof (labels_length l2 n Hw2 Hs2) as Hlen2.
  assert (Hn : (0 < n)%N).
  { destruct (N.eq_dec n 0) as [-> | Hn]; [ | lia].
    rewrite encode_labels_empty in E1; [discriminate | ].
    destruct (np.data l1); [reflexivity | simpl in Hlen1; lia]. }
  destruct (to_categorical_spec l1 n Hw1 Hs1 Hn)
    as (m1 & c1 & Em1 & Ec1 & Hsc1 & _ & Hitems1).
  { eapply Forall_impl; [ | exact Hu1]. simpl. intros; lia. }
  destruct (to_categorical_spec l2 n Hw2 Hs2 Hn)
    as (m2 & c2 & Em2 & Ec2 & Hsc2 & _ & Hitems2).
  { eapply Forall_impl; [ | exact Hu2]. simpl. intros; lia. }
  unfold nb.encode_labels in E1, E2.
  rewrite E1 in Ec1. injection Ec1 as <-.
  rewrite E2 in Ec2. injection Ec2 as <-.
  destruct (amax_spec (np.data l1)) as (m1' & Em1' & Hin1 & Hmax1).
  { intros E. rewrite E in Hlen1. simpl in Hlen1. lia. }
  rewrite Em1 in Em1'. injection Em1' as <-.
  destruct (amax_spec (np.data l2)) as (m2' & Em2' & Hin2 & Hmax2).
  { intros E. rewrite E in Hlen2. simpl in Hlen2. lia. }
  rewrite Em2 in Em2'. injection Em2' as <-.
  unfold np.is_uint8 in Hu1, Hu2.
  rewrite Forall_forall in Hu1, Hu2, Hmax1, Hmax2.
  pose proof (Hu1 m1 Hin1) as Hm1. pose proof (Hu2 m2 Hin2) as Hm2.
  assert (Hm : m1 = m2).
  { rewrite Hsc1 in Hsc2. injection Hsc2 as Hk. lia. }
  subst m2.
  assert (Hdata : np.data l1 = np.data l2).
  { apply nth_error_ext. intros p.
    destruct (Nat.lt_ge_cases p (length (np.data l1))) as [Hp | Hp].
    - destruct (nth_error (np.data l1) p) as [a | ] eqn:Ea;
        [ | apply nth_error_None in Ea; lia].
      destruct (nth_error (np.data l2) p) as [b | ] eqn:Eb;
        [ | apply nth_error_None in Eb; lia].
      pose proof (nth_error_In _ _ Ea) as Hina.
      pose proof (Hu1 a Hina) as Ha. pose proof (Hmax1 a Hina) as Ham.
      assert (Hi : (N.of_nat p < n)%N) by lia.
      assert (Hj : (Z.to_N a < Z.to_N (m1 + 1))%N) by lia.
      destruct (Hitems1 _ _ Hi Hj) as (x & Ex & Ecx).
      destruct (Hitems2 _ _ Hi Hj) as (y & Ey & Ecy).
      apply (item_1d l1 n) in Ex as [_ Ex]; [ | exact Hs1].
      apply (item_1d l2 n) in Ey as [_ Ey]; [ | exact Hs2].
      rewrite Nat2N.id in Ex, Ey.
      rewrite Ea in Ex. injection Ex as <-.
      rewrite Eb in Ey. injection Ey as <-.
      rewrite Z2N.id in Ecx, Ecy by lia.
      rewrite Z.eqb_refl in Ecx. rewrite Ecx in Ecy.
      destruct (Z.eqb_spec b a) as [-> | _]; [reflexivity | ].
      discriminate Ecy.
    - rewrite (proj2 (nth_error_None _ _)) by lia.
      symmetry. apply nth_error_None. lia. }
  destruct l1, l2. simpl in *. congruence.
Qed.

(** The theorem at the labels 1 and 0, written in two ways. *)
Lemma encode_labels_injective_witness :
  np.mk_ndarray [2]%N [1; 0]%Z
  = np.mk_ndarray [2]%N (map Z.of_nat [1; 0]%nat).
Proof.
  apply (encode_labels_injective
           (np.mk_ndarray [2]%N [1; 0]%Z)
           (np.mk_ndarray [2]%N (map Z.of_nat [1; 0]%nat)) 2%N
           (np.mk_ndarray [2; 2]%N
              [Float64.zero; Float64.one; Float64.one; Float64.zero]));
    try reflexivity; repeat constructor; simpl; lia.
Defined.

(** ** The network on its inputs *)





Section Shift.

Import keras.
Local Open Scope R_scope.




End Shift.


(** ** Names *)

Lemma well_scoped_spec (ss : list py.stmt) :
  forall bound,
    well_scoped bound ss = true ->
    forall pre s post v,
      ss = pre ++ s :: post ->
      In v (py.reads s) ->
      In v bound \/ exists s', In s' pre /\ In v (py.assigned s').
Proof.
  induction ss as [ | s0 ss IH]; intros bound H pre s post v Hss Hv.
  - destruct pre; discriminate.
  - simpl in H. apply andb_true_iff in H as [Hreads Hrest].
    destruct pre as [ | p pre]; simpl in Hss; injection Hss as -> ->.
    + left. rewrite forallb_forall in Hreads.
      apply mentions_In, Hreads, Hv.
    + destruct (IH _ Hrest pre s post v eq_refl Hv) as [Hb | (s' & Hs' & Ha)].
      * apply in_app_or in Hb as [Hb | Hb].
        -- right. exists p. split; [now left | exact Hb].
        -- now left.
      * right. exists s'. split; [now right | exact Ha].
Qed.

(** X11.  Run top to bottom, the notebook never reads a name that is not
    bound: every name a statement reads is a builtin ([len], [print]) or
    was bound by a statement before it. *)
Theorem names_bound_before_read (pre post : list py.stmt) (s : py.stmt)
        (v : string) :
  nb.program = pre ++ s :: post ->
  In v (py.reads s) ->
  In v builtins \/ exists s', In s' pre /\ In v (py.assigned s').
Proof.
  apply (well_scoped_spec nb.program builtins). reflexivity.
Qed.

(** The theorem at the call of [fit] and the name [train_labels]. *)
Lemma names_bound_before_read_witness :
  In "train_labels"%string builtins
  \/ exists s', In s' (firstn 23 nb.program)
                /\ In "train_labels"%string (py.assigned s').
Proof.
  apply (names_bound_before_read (firstn 23 nb.program)
                                 (skipn 24 nb.program) nb.fit_stmt).
  - reflexivity.
  - simpl. tauto.
Defined.

Lemma bindings_nil (v : string) (ss : list py.stmt) :
  ~ In v (flat_map py.assigned ss) -> bindings v ss = [].
Proof.
  induction ss as [ | s ss IH]; intros H; [reflexivity | ].
  simpl in H. unfold bindings in *. simpl.
  destruct (nb.mentions v (py.assigned s)) eqn:E.
  - apply mentions_In in E. exfalso. apply H, in_or_app. now left.
  - apply IH. intros Hin. apply H, in_or_app. now right.
Qed.

(** X12.  The only names the notebook binds more than once are the four
    arrays: the modules, [network], [test_loss] and [test_acc] keep the
    value of their one binding. *)
Theorem only_arrays_rebound (v : string) :
  (1 < length (bindings v nb.program))%nat <-> In v nb.arrays.
Proof.
  destruct (in_dec string_dec v (flat_map py.assigned nb.program))
    as [Hin | Hout].
  - vm_compute in Hin.
    repeat (destruct Hin as [<- | Hin];
            [vm_compute; split;
             [intros H; first [tauto | exfalso; lia]
             | intros H;
               first [lia
                     | repeat (destruct H as [H | H]; try discriminate H);
                       contradiction] ] | ]).
    contradiction.
  - rewrite (bindings_nil v nb.program Hout). simpl. split; [lia | ].
    intros H. exfalso. apply Hout.
    vm_compute in H |- *.
    repeat (destruct H as [<- | H]; [tauto | ]). contradiction.
Qed.

(** ** The size of the model *)




(** ** Targets and scores *)

(** X14.  The targets fit the network exactly when the largest label is
    9: cell 26 gives the targets as many columns as the last layer has
    units, 10, if and only if the label 9 occurs in the array. *)
Theorem targets_fit_network_iff (labels : np.ndarray Z) (n : N) :
  np.wf labels ->
  np.shape labels = [n] ->
  (0 < n)%N ->
  Forall (fun l => 0 <= l <= 9)%Z (np.data labels) ->
  exists c,
    nb.encode_labels labels = Ok c
    /\ (np.shape c
        = [n; keras.units (last (keras.layers nb.network)
                                (keras.Dense 0 keras.relu None))]
        <-> In 9%Z (np.data labels)).
Proof.
  intros Hwf Hs Hn Hrange.
  destruct (to_categorical_spec labels n Hwf Hs Hn)
    as (m & c & Em & Ec & Hsc & _).
  { eapply Forall_impl; [ | exact Hrange]. simpl. intros; lia. }
  destruct (amax_spec (np.data labels)) as (m' & Em' & Hin & Hmax).
  { intros E. pose proof (labels_length labels n Hwf Hs) as Hlen.
    rewrite E in Hlen. simpl in Hlen. lia. }
  rewrite Em in Em'. injection Em' as <-.
  rewrite Forall_forall in Hrange, Hmax.
  pose proof (Hrange m Hin) as Hm.
  exists c. split; [exact Ec | ].
  change (keras.units _) with 10%N. rewrite Hsc. split.
  - intros E. injection E as E. replace 9%Z with m by lia. exact Hin.
  - intros H9. specialize (Hmax 9%Z H9). replace m with 9%Z by lia.
    reflexivity.
Qed.

(** The theorem at the labels 5, 0, 4, which stop short of 9. *)
Lemma targets_fit_network_iff_witness :
  exists c,
    nb.encode_labels (np.mk_ndarray [3]%N [5; 0; 4]%Z) = Ok c
    /\ (np.shape c
        = [3%N; keras.units (last (keras.layers nb.network)
                                  (keras.Dense 0 keras.relu None))]
        <-> In 9%Z [5; 0; 4]%Z).
Proof.
  apply (targets_fit_network_iff (np.mk_ndarray [3]%N [5; 0; 4]%Z) 3%N);
    try reflexivity.
  repeat constructor; lia.
Defined.
